(** * Telegram-Bot: a shallow embedding of the configuration store and the
      bot facade

    The development follows the two Python modules of the repository:

    - [telegram_utils/config.py] and [telegram_utils/main.py] (the package),
    - [telegram_bot.py] (the single-file script, an earlier variant of the
      same classes).

    Python values are embedded as a small universe [pyobj]; dictionaries are
    association lists in insertion order.  The file system is a tree of
    directories and regular files.  The collaborators that the repository
    does not implement ([pickle], [random], the [telegram] client) are
    interfaces (type classes); the code of the repository is written in a
    state-and-exception monad over them. *)

From Stdlib Require Import ZArith String Ascii List Bool Lia DecimalString.
From Stdlib.Strings Require Import Byte.
Import ListNotations.

Local Open Scope string_scope.
Local Open Scope list_scope.
Local Set Warnings "-register-all".

(* ===================================================================== *)
(** * Part I: definitions *)
(* ===================================================================== *)

(** ** Exceptions *)

(** The exception classes that the modelled code raises, catches or lets
    through.  [ConfigError], [NoTokenError] and [NoClientIdsError] are the
    classes of [errors.py]; they carry their message. *)
Inductive exn : Type :=
| FileNotFoundError
| NotADirectoryError
| IsADirectoryError
| FileExistsError
| EOFError
| UnpicklingError
| AttributeError
| TypeError
| ConfigError (msg : string)
| NoTokenError (msg : string)
| NoClientIdsError (msg : string)
| TelegramError (msg : string).

(** [isinstance(e, ConfigError)]: in [errors.py] both [NoTokenError] and
    [NoClientIdsError] derive from [ConfigError]. *)
Definition isinstance_ConfigError (e : exn) : bool :=
  match e with
  | ConfigError _ | NoTokenError _ | NoClientIdsError _ => true
  | _ => false
  end.

(** Result of a computation that may raise. *)
Inductive result (A : Type) : Type :=
| Ok (a : A)
| Err (e : exn).
Arguments Ok {A} a.
Arguments Err {A} e.

Definition rbind {A B} (r : result A) (k : A -> result B) : result B :=
  match r with
  | Ok a => k a
  | Err e => Err e
  end.

(** [try: body except ...]: [handler e = Some k] when an [except] clause
    matches [e]; an unmatched exception propagates. *)
Definition rtry {A} (body : result A) (handler : exn -> option (result A))
  : result A :=
  match body with
  | Ok a => Ok a
  | Err e => match handler e with
             | Some k => k
             | None => Err e
             end
  end.

(** ** Python values *)

(** Hashable values used as dictionary keys. *)
Inductive pykey : Type :=
| KInt (z : Z)
| KStr (s : string).

Inductive pyobj : Type :=
| PyNone
| PyBool (b : bool)
| PyInt (z : Z)
| PyStr (s : string)
| PyList (l : list pyobj)
| PyDict (d : list (pykey * pyobj)).

Definition pydict : Type := list (pykey * pyobj).

Definition key_eqb (a b : pykey) : bool :=
  match a, b with
  | KInt x, KInt y => Z.eqb x y
  | KStr s, KStr t => String.eqb s t
  | _, _ => false
  end.

Definition obj_of_key (k : pykey) : pyobj :=
  match k with
  | KInt z => PyInt z
  | KStr s => PyStr s
  end.

(** Truth value testing ([not x], [if x], [x or y]). *)
Definition truthy (o : pyobj) : bool :=
  match o with
  | PyNone => false
  | PyBool b => b
  | PyInt z => negb (Z.eqb z 0)
  | PyStr s => negb (String.eqb s "")
  | PyList l => match l with [] => false | _ :: _ => true end
  | PyDict d => match d with [] => false | _ :: _ => true end
  end.

(** [x is False]: identity with the singleton [False]. *)
Definition is_False (o : pyobj) : bool :=
  match o with
  | PyBool false => true
  | _ => false
  end.

(** ** Association lists with dictionary semantics *)

Section Assoc.
Context {K V : Type} (eqb : K -> K -> bool).

Fixpoint assoc_get (k : K) (l : list (K * V)) : option V :=
  match l with
  | [] => None
  | (k', v) :: l' => if eqb k' k then Some v else assoc_get k l'
  end.

(** [d[k] = v]: an existing key keeps its position, a new key goes last. *)
Fixpoint assoc_set (k : K) (v : V) (l : list (K * V)) : list (K * V) :=
  match l with
  | [] => [(k, v)]
  | (k', v') :: l' =>
      if eqb k' k then (k', v) :: l' else (k', v') :: assoc_set k v l'
  end.
End Assoc.

Definition dict_get (d : pydict) (k : pykey) : option pyobj :=
  assoc_get key_eqb k d.

Definition dict_setitem (k : pykey) (v : pyobj) (d : pydict) : pydict :=
  assoc_set key_eqb k v d.

(** [d.update(other)] for a dictionary [other]. *)
Definition dict_update (d other : pydict) : pydict :=
  fold_left (fun acc kv => dict_setitem (fst kv) (snd kv) acc) other d.

Definition dict_contains (d : pydict) (k : pykey) : bool :=
  match dict_get d k with
  | Some _ => true
  | None => false
  end.

(** [o.get(name)] on an unpickled object: only dictionaries have [get]. *)
Definition py_get (o : pyobj) (name : string) : result pyobj :=
  match o with
  | PyDict d => match dict_get d (KStr name) with
                | Some v => Ok v
                | None => Ok PyNone
                end
  | _ => Err AttributeError
  end.

(** [o.update(other)]: only dictionaries have [update]. *)
Definition py_update (o : pyobj) (other : pydict) : result pyobj :=
  match o with
  | PyDict d => Ok (PyDict (dict_update d other))
  | _ => Err AttributeError
  end.

(** [k in o]. *)
Definition py_contains (o : pyobj) (k : pykey) : result bool :=
  match o with
  | PyDict d => Ok (dict_contains d k)
  | PyList l =>
      Ok (existsb (fun x => match x, k with
                            | PyInt a, KInt b => Z.eqb a b
                            | PyBool a, KInt b => Z.eqb (Z.b2z a) b
                            | PyStr a, KStr b => String.eqb a b
                            | _, _ => false
                            end) l)
  | _ => Err TypeError
  end.

Definition chars_of (s : string) : list pyobj :=
  map (fun c => PyStr (String c EmptyString)) (list_ascii_of_string s).

(** [for x in o]: the sequence of values the loop visits. *)
Definition py_iter (o : pyobj) : result (list pyobj) :=
  match o with
  | PyDict d => Ok (map (fun kv => obj_of_key (fst kv)) d)
  | PyList l => Ok l
  | PyStr s => Ok (chars_of s)
  | _ => Err TypeError
  end.

(** The ASCII digits ["0"] to ["9"]. *)
Definition is_ascii_digit (c : ascii) : bool :=
  Nat.leb 48 (nat_of_ascii c) && Nat.leb (nat_of_ascii c) 57.

(** [str(n)] for an integer. *)
Definition str_of_int (n : Z) : string := NilZero.string_of_int (Z.to_int n).

(** Embedding of the typed values of the data model. *)
Definition of_credential (c : option string) : pyobj :=
  match c with
  | Some t => PyStr t
  | None => PyNone
  end.

Definition registry : Type := list (Z * string).

Definition of_registry (r : registry) : pyobj :=
  PyDict (map (fun e => (KInt (fst e), PyStr (snd e))) r).

Definition of_ids (ids : option (list Z)) : pyobj :=
  match ids with
  | Some l => PyList (map PyInt l)
  | None => PyNone
  end.

(** ** File system

    A path is the list of its names, from the directory the process runs
    in.  Names are not interpreted: the model is meant for paths without
    ["."] and [".."] (see [plain_path]); permissions and links are left
    out. *)

Definition bytes : Type := list byte.
Definition path : Type := list string.

Inductive node : Type :=
| File (data : bytes)
| Dir (entries : list (string * node)).

Definition entry_get := @assoc_get string node String.eqb.
Definition entry_set := @assoc_set string node String.eqb.

(** [Path.parent]. *)
Definition parent (p : path) : path := removelast p.

Fixpoint fs_stat (n : node) (p : path) : result node :=
  match p with
  | [] => Ok n
  | c :: p' =>
      match n with
      | File _ => Err NotADirectoryError
      | Dir es => match entry_get c es with
                  | Some n' => fs_stat n' p'
                  | None => Err FileNotFoundError
                  end
      end
  end.

(** [open(p, "rb")] followed by reading the whole file. *)
Definition fs_read (root : node) (p : path) : result bytes :=
  match fs_stat root p with
  | Ok (File data) => Ok data
  | Ok (Dir _) => Err IsADirectoryError
  | Err e => Err e
  end.

(** [open(p, "wb")] followed by writing [data]: the file is created in an
    existing directory, or replaced. *)
Fixpoint fs_write (n : node) (p : path) (data : bytes) : result node :=
  match p with
  | [] => match n with
          | File _ => Ok (File data)
          | Dir _ => Err IsADirectoryError
          end
  | c :: p' =>
      match n with
      | File _ => Err NotADirectoryError
      | Dir es =>
          match entry_get c es with
          | Some n' => match fs_write n' p' data with
                       | Ok n'' => Ok (Dir (entry_set c n'' es))
                       | Err e => Err e
                       end
          | None => match p' with
                    | [] => Ok (Dir (entry_set c (File data) es))
                    | _ :: _ => Err FileNotFoundError
                    end
          end
      end
  end.

Definition fresh_dirs (p : path) : node :=
  fold_right (fun c n => Dir [(c, n)]) (Dir []) p.

(** [os.makedirs(p)] (with [exist_ok=False]). *)
Fixpoint fs_makedirs (n : node) (p : path) : result node :=
  match p with
  | [] => Err FileExistsError
  | c :: p' =>
      match n with
      | File _ => Err NotADirectoryError
      | Dir es =>
          match entry_get c es with
          | Some n' => match fs_makedirs n' p' with
                       | Ok n'' => Ok (Dir (entry_set c n'' es))
                       | Err e => Err e
                       end
          | None => Ok (Dir (entry_set c (fresh_dirs p') es))
          end
      end
  end.

(** ** Interfaces of the external collaborators *)

(** [pickle.dumps] / [pickle.loads] ([pickle.dump] and [pickle.load] on a
    file are these composed with the file system). *)
Class Pickle : Type := {
  pickle_dumps : pyobj -> bytes;
  pickle_loads : bytes -> result pyobj
}.

(** Unpickling what was pickled gives the value back. *)
Class PickleLaws (P : Pickle) : Prop := {
  pickle_roundtrip : forall o, pickle_loads (pickle_dumps o) = Ok o
}.

(** The module [random]: [randint a b] draws from the generator state. *)
Class Random : Type := {
  rng : Type;
  randint : Z -> Z -> rng -> Z * rng
}.

Class RandomLaws (R : Random) : Prop := {
  randint_range :
    forall a b g, (a <= b)%Z -> (a <= fst (randint a b g) <= b)%Z
}.

(** An inbound text message: [msg.chat.id], [msg.chat.full_name],
    [msg.text].  The library gives [full_name] as [None] for a chat
    without a first name (a group or a channel). *)
Record Message : Type := mkMessage {
  chat_id : Z;
  chat_full_name : option string;
  text : string
}.

(** The value of [msg.chat.full_name]: a string or [None]. *)
Definition of_full_name (name : option string) : pyobj :=
  match name with
  | Some t => PyStr t
  | None => PyNone
  end.

(** What polling delivers; only text messages pass [Filters.text]. *)
Inductive Update : Type :=
| TextMessage (msg : Message)
| OtherUpdate.

(** Calls made on the chat transport. *)
Inductive api_call : Type :=
| SendMessage (to : pyobj) (body : string) (parse_mode : pyobj)
| ReplyText (msg : Message) (body : string).

(** The [telegram] client library: creating a client for a token may be
    refused, and every call either succeeds or raises. *)
Class Telegram : Type := {
  net : Type;
  client_new : pyobj -> option exn;
  api_exec : api_call -> net -> option exn * net
}.

(** ** The configuration store ([config.py]; the same class opens
       [telegram_bot.py]) *)

Record Config : Type := mkConfig {
  filepath : path;
  token : pyobj;
  client_ids : pyobj
}.

(** The dictionary [{"token": self.token, "client_ids": self.client_ids}]
    that [write_config] pickles. *)
Definition config_obj (c : Config) : pyobj :=
  PyDict [(KStr "token", token c); (KStr "client_ids", client_ids c)].

(** Outcome of a call of the facade: it returns, raises, or never returns
    because the listen session is still waiting for an inbound message. *)
Inductive outcome (A : Type) : Type :=
| Return (a : A)
| Raise (e : exn)
| Hang.
Arguments Return {A} a.
Arguments Raise {A} e.
Arguments Hang {A}.

Definition NoToken_msg : string :=
  "No Token found! Use `set_bot_token` to add a token first.".
Definition NoClientIds_msg : string :=
  "No Token found! Use `add_client` to add a clients first.".
Definition password_notice (password : string) : string :=
  "Please send the password '" ++ password ++ "' to your bot.".

Section Facade.
Context {P : Pickle} {R : Random} {T : Telegram}.

(** [Config.__init__]. *)
Definition Config_init (root : node) (fp : path) : result Config :=
  rtry
    (rbind (fs_read root fp) (fun data =>
     rbind (pickle_loads data) (fun config =>
     rbind (py_get config "token") (fun tok =>
     rbind (py_get config "client_ids") (fun ids =>
     Ok (mkConfig fp tok ids))))))
    (fun e =>
       match e with
       | FileNotFoundError => Some (Ok (mkConfig fp PyNone (PyDict [])))
       | UnpicklingError =>
           Some (Err (ConfigError "Invalid configuration file!"))
       | _ => None
       end).

(** The bot object together with the world it runs in. *)
Record State : Type := mkState {
  config : Config;            (* self.config *)
  fs : node;                  (* the file system *)
  stdin : list string;        (* lines that input() will read *)
  logged : list string;       (* records emitted through self.logger *)
  generator : rng;            (* state of the module random *)
  network : net;              (* state of the chat transport *)
  api_log : list api_call;    (* transport calls attempted so far *)
  inbox : list Update;        (* updates that polling will deliver *)
  chat_data : pydict;         (* dispatcher.chat_data *)
  sigterm : bool              (* a SIGTERM has been raised *)
}.

Definition set_config (c : Config) (s : State) : State :=
  mkState c (fs s) (stdin s) (logged s) (generator s) (network s)
          (api_log s) (inbox s) (chat_data s) (sigterm s).
Definition set_fs (r : node) (s : State) : State :=
  mkState (config s) r (stdin s) (logged s) (generator s) (network s)
          (api_log s) (inbox s) (chat_data s) (sigterm s).
Definition set_stdin (l : list string) (s : State) : State :=
  mkState (config s) (fs s) l (logged s) (generator s) (network s)
          (api_log s) (inbox s) (chat_data s) (sigterm s).
Definition set_logged (l : list string) (s : State) : State :=
  mkState (config s) (fs s) (stdin s) l (generator s) (network s)
          (api_log s) (inbox s) (chat_data s) (sigterm s).
Definition set_generator (g : rng) (s : State) : State :=
  mkState (config s) (fs s) (stdin s) (logged s) g (network s)
          (api_log s) (inbox s) (chat_data s) (sigterm s).
Definition set_network (n : net) (l : list api_call) (s : State) : State :=
  mkState (config s) (fs s) (stdin s) (logged s) (generator s) n
          l (inbox s) (chat_data s) (sigterm s).
Definition set_inbox (l : list Update) (s : State) : State :=
  mkState (config s) (fs s) (stdin s) (logged s) (generator s) (network s)
          (api_log s) l (chat_data s) (sigterm s).
Definition set_chat_data (d : pydict) (s : State) : State :=
  mkState (config s) (fs s) (stdin s) (logged s) (generator s) (network s)
          (api_log s) (inbox s) d (sigterm s).
Definition set_sigterm (b : bool) (s : State) : State :=
  mkState (config s) (fs s) (stdin s) (logged s) (generator s) (network s)
          (api_log s) (inbox s) (chat_data s) b.

(** *** The monad of the facade *)

Definition M (A : Type) : Type := State -> outcome A * State.

Definition ret {A} (a : A) : M A := fun s => (Return a, s).
Definition raise {A} (e : exn) : M A := fun s => (Raise e, s).
Definition bind {A B} (m : M A) (k : A -> M B) : M B :=
  fun s => match m s with
           | (Return a, s') => k a s'
           | (Raise e, s') => (Raise e, s')
           | (Hang, s') => (Hang, s')
           end.

Notation "x <- c1 ;; c2" := (bind c1 (fun x => c2))
  (at level 61, c1 at next level, right associativity).
Notation "c1 ;; c2" := (bind c1 (fun _ => c2))
  (at level 61, right associativity).

Definition gets {A} (f : State -> A) : M A := fun s => (Return (f s), s).
Definition modify (f : State -> State) : M unit :=
  fun s => (Return tt, f s).

Definition try_except {A} (body : M A) (handler : exn -> option (M A))
  : M A :=
  fun s => match body s with
           | (Raise e, s') => match handler e with
                              | Some k => k s'
                              | None => (Raise e, s')
                              end
           | r => r
           end.

(** A file-system operation that replaces the tree when it succeeds. *)
Definition fs_update (op : node -> result node) : M unit :=
  fun s => match op (fs s) with
           | Ok r => (Return tt, set_fs r s)
           | Err e => (Raise e, s)
           end.

(** [with open(p, "wb") as f: pickle.dump(obj, f)].  Every value of
    [pyobj] can be pickled, so [pickle.dump] does not raise here and the
    file goes from its old content to the new one in one step. *)
Definition dump_to (p : path) (obj : pyobj) : M unit :=
  fs_update (fun r => fs_write r p (pickle_dumps obj)).

Definition os_makedirs (p : path) : M unit :=
  fs_update (fun r => fs_makedirs r p).

(** [Config.write_config]. *)
Definition write_config : M unit :=
  cfg <- gets config ;;
  try_except
    (dump_to (filepath cfg) (config_obj cfg))
    (fun e =>
       match e with
       | FileNotFoundError =>
           Some (os_makedirs (parent (filepath cfg)) ;;
                 dump_to (filepath cfg) (config_obj cfg))
       | _ => None
       end).

(** [input(prompt)]: the next line of standard input. *)
Definition input : M string :=
  fun s => match stdin s with
           | line :: rest => (Return line, set_stdin rest s)
           | [] => (Raise EOFError, s)
           end.

(** [self.logger.warning(record)]. *)
Definition logger_warning (record : string) : M unit :=
  modify (fun s => set_logged (logged s ++ [record]) s).

(** One transport call: it is logged as attempted, then carried out. *)
Definition api (c : api_call) : M unit :=
  fun s => let (r, n) := api_exec c (network s) in
           let s' := set_network n (api_log s ++ [c]) s in
           match r with
           | None => (Return tt, s')
           | Some e => (Raise e, s')
           end.

(** [telegram.Bot(token)] and [Updater(token=token)]. *)
Definition new_client (tok : pyobj) : M unit :=
  match client_new tok with
  | None => ret tt
  | Some e => raise e
  end.

Definition lift {A} (r : result A) : M A :=
  match r with
  | Ok a => ret a
  | Err e => raise e
  end.

(** [self.config.client_ids.update(client)]: the dictionary held by the
    configuration is updated in place. *)
Definition client_ids_update (client : pydict) : M unit :=
  cfg <- gets config ;;
  ids <- lift (py_update (client_ids cfg) client) ;;
  modify (set_config (mkConfig (filepath cfg) (token cfg) ids)).

(** *** [TelegramBot] *)

(** [TelegramBot.__init__]: [default] is
    [basedir / "telegram_config.pickle"].  [Some p] stands for an argument
    that is truthy and names [p] (a [Path], or a string that is not
    empty); [None] stands for an argument that is not: [None] or the
    empty string. *)
Definition TelegramBot_init (config_filepath : option path)
    (default : path) : M unit :=
  fun s =>
    let fp := match config_filepath with
              | Some p => p
              | None => default
              end in
    match Config_init (fs s) fp with
    | Ok c => (Return tt, set_config c s)
    | Err e => (Raise e, s)
    end.

(** [TelegramBot.set_bot_token]. *)
Definition set_bot_token (tok : pyobj) : M unit :=
  t <- (if truthy tok then ret tok
        else line <- input ;; ret (PyStr line)) ;;
  cfg <- gets config ;;
  modify (set_config (mkConfig (filepath cfg) t (client_ids cfg))) ;;
  write_config.

(** The loop [for chat_id in client_ids: bot.send_message(...)]. *)
Fixpoint send_each (ids : list pyobj) (message : string)
    (parse_mode : pyobj) : M unit :=
  match ids with
  | [] => ret tt
  | chat :: rest =>
      api (SendMessage chat message parse_mode) ;;
      send_each rest message parse_mode
  end.

(** [if not client_ids: client_ids = self.config.client_ids]. *)
Definition effective_recipients (ids : pyobj) (cfg : Config) : pyobj :=
  if truthy ids then ids else client_ids cfg.

(** [TelegramBot.send_message] (the same text in both modules). *)
Definition send_message (message : string) (parse_mode : pyobj)
    (ids : pyobj) : M unit :=
  cfg <- gets config ;;
  let ids := effective_recipients ids cfg in
  if negb (truthy (token cfg)) then raise (NoTokenError NoToken_msg)
  else if negb (truthy ids) then raise (NoClientIdsError NoClientIds_msg)
  else
    new_client (token cfg) ;;
    targets <- lift (py_iter ids) ;;
    send_each targets message parse_mode.

(** [TelegramHandler.emit] after formatting. *)
Definition emit (formatted : string) : M unit :=
  send_message formatted PyNone PyNone.

(** *** Listening *)

(** [context.chat_data.update(msg=update.message.text)]: the dictionary
    of the chat inside [dispatcher.chat_data] gets the key ["msg"]. *)
Definition chat_data_update (msg : Message) : M unit :=
  modify (fun s =>
    let per_chat := match dict_get (chat_data s) (KInt (chat_id msg)) with
                    | Some (PyDict d) => d
                    | _ => []
                    end in
    set_chat_data
      (dict_setitem (KInt (chat_id msg))
         (PyDict (dict_setitem (KStr "msg") (PyStr (text msg)) per_chat))
         (chat_data s)) s).

(** [signal.raise_signal(signal.SIGTERM)]. *)
Definition raise_sigterm : M unit := modify (set_sigterm true).

(** The part of [handle_msg] that both modules share: run the predicate
    and answer according to [res is False]. *)
Definition judge (f : Message -> M pyobj) (msg : Message) : M pyobj :=
  chat_data_update msg ;;
  res <- f msg ;;
  if is_False res then
    api (ReplyText msg "Invalid!") ;;
    ret (PyBool false)
  else
    api (ReplyText msg "Accepted.") ;;
    raise_sigterm ;;
    ret (PyBool true).

(** [handle_msg] of [telegram_utils/main.py]. *)
Definition handle_msg (f : Message -> M pyobj) (msg : Message)
  : M pyobj :=
  judge f msg.

(** [handle_msg] of [telegram_bot.py]: messages of chats that are not
    registered are dropped first. *)
Definition script_handle_msg (f : Message -> M pyobj) (msg : Message)
  : M pyobj :=
  cfg <- gets config ;;
  known <- lift (py_contains (client_ids cfg) (KInt (chat_id msg))) ;;
  if negb known then ret (PyBool false)
  else judge f msg.

(** The dispatcher hands a text message to the handler; its return value
    is not used, and an exception of the handler is logged by the library
    and does not stop the polling.  [chat_data] is recorded where
    [handle_msg] writes to it; the empty entry that the library makes for
    the chat of a message it hands over is not. *)
Definition dispatch (handler : Message -> M pyobj) (u : Update)
  : M unit :=
  match u with
  | TextMessage msg =>
      fun s => match handler msg s with
               | (Hang, s') => (Hang, s')
               | (_, s') => (Return tt, s')
               end
  | OtherUpdate => ret tt
  end.

(** The polling loop: updates are dispatched one by one until a SIGTERM
    has been raised; with no update left the call keeps waiting.  The
    inbox lists the updates as they are fetched, one at a time: the loop
    stops before the update after the accepted one is fetched.  (Updates
    that the library has fetched together with the accepted one would
    still be dispatched; such runs are not described.) *)
Fixpoint poll (handler : Message -> M pyobj) (pending : list Update)
  : M unit :=
  match pending with
  | [] => fun s => (Hang, set_inbox [] s)
  | u :: rest =>
      modify (set_inbox rest) ;;
      dispatch handler u ;;
      stop <- gets sigterm ;;
      if stop then modify (set_sigterm false)
      else poll handler rest
  end.

(** [updater.start_polling(); updater.idle([SIGTERM])]: the signal
    handler is installed here, so only a SIGTERM raised from now on
    counts. *)
Definition idle (handler : Message -> M pyobj) : M unit :=
  modify (set_sigterm false) ;;
  pending <- gets inbox ;;
  poll handler pending.

(** The body of [wrapper], for a given [handle_msg]: a new [Updater]
    starts with an empty [dispatcher.chat_data]. *)
Definition session (handler : Message -> M pyobj) : M pydict :=
  cfg <- gets config ;;
  new_client (token cfg) ;;
  modify (set_chat_data []) ;;
  idle handler ;;
  gets chat_data.

Definition wrapper (f : Message -> M pyobj) : M pydict :=
  session (handle_msg f).

Definition script_wrapper (f : Message -> M pyobj) : M pydict :=
  session (script_handle_msg f).

(** [TelegramBot.get_message] of [telegram_utils/main.py]. *)
Definition get_message (f : Message -> M pyobj) : M (M pydict) :=
  cfg <- gets config ;;
  if negb (truthy (token cfg)) then raise (NoTokenError NoToken_msg)
  else ret (wrapper f).

(** [TelegramBot.get_message] of [telegram_bot.py]. *)
Definition script_get_message (f : Message -> M pyobj) : M (M pydict) :=
  cfg <- gets config ;;
  if negb (truthy (token cfg)) then raise (NoTokenError NoToken_msg)
  else if negb (truthy (client_ids cfg)) then
    raise (NoClientIdsError NoClientIds_msg)
  else ret (script_wrapper f).

(** *** Registration *)

(** [[str(randint(0, 9)) for _ in range(n)]]. *)
Fixpoint draw_digits (n : nat) : M (list string) :=
  match n with
  | O => ret []
  | S n' =>
      d <- (fun s => let (z, g) := randint 0 9 (generator s) in
                     (Return z, set_generator g s)) ;;
      ds <- draw_digits n' ;;
      ret (str_of_int d :: ds)
  end.

(** The values that [n] successive calls of [randint(0, 9)] return, and
    the generator state they leave. *)
Fixpoint draws (n : nat) (g : rng) : list Z * rng :=
  match n with
  | O => ([], g)
  | S n' => let (z, g1) := randint 0 9 g in
            let (zs, g2) := draws n' g1 in
            (z :: zs, g2)
  end.

(** ["".join([str(randint(0, 9)) for _ in range(8)])]. *)
Definition new_password : M string :=
  ds <- draw_digits 8 ;;
  ret (String.concat "" ds).

(** [handle_passwd], the predicate of the registration flow. *)
Definition handle_passwd (password : string) (msg : Message) : M pyobj :=
  if String.eqb (text msg) password then
    client_ids_update
      [(KInt (chat_id msg), of_full_name (chat_full_name msg))] ;;
    write_config ;;
    ret (PyBool true)
  else ret (PyBool false).

(** [TelegramBot.register_client] of [telegram_utils/main.py]. *)
Definition register_client : M unit :=
  password <- new_password ;;
  logger_warning (password_notice password) ;;
  listen <- get_message (handle_passwd password) ;;
  listen ;;
  ret tt.

(** [TelegramBot.__register_client] of [telegram_bot.py]. *)
Definition script_register_client : M unit :=
  password <- new_password ;;
  logger_warning (password_notice password) ;;
  listen <- script_get_message (handle_passwd password) ;;
  listen ;;
  ret tt.

(** [TelegramBot.add_client] of [telegram_utils/main.py]. *)
Definition add_client (client : pydict) : M unit :=
  client_ids_update client ;;
  write_config.

(** [TelegramBot.add_client] of [telegram_bot.py]; [None] is the default
    argument. *)
Definition script_add_client (client : option pydict) : M unit :=
  match client with
  | Some (_ :: _ as d) =>
      client_ids_update d ;;
      write_config
  | _ => script_register_client
  end.

(** The state after a reply has been sent without error. *)
Definition after_reply (msg : Message) (body : string) (n : net)
    (s : State) : State :=
  set_network n (api_log s ++ [ReplyText msg body]) s.

(** *** Operations that change the credential or the registry *)

Inductive mutation : Type :=
| SetToken (tok : pyobj)
| AddClient (client : pydict)
| ScriptAddClient (client : option pydict)
| RegisterClient
| ScriptRegisterClient.

Definition perform (m : mutation) : M unit :=
  match m with
  | SetToken tok => set_bot_token tok
  | AddClient client => add_client client
  | ScriptAddClient client => script_add_client client
  | RegisterClient => register_client
  | ScriptRegisterClient => script_register_client
  end.

(** The transport carries out every call of [calls], in order, without
    raising, and is left in the state returned. *)
Fixpoint all_delivered (calls : list api_call) (n : net) : option net :=
  match calls with
  | [] => Some n
  | c :: rest => match api_exec c n with
                 | (None, n') => all_delivered rest n'
                 | (Some _, _) => None
                 end
  end.

End Facade.

Arguments State {R T}.
Arguments M {R T} A.

(** ** Reference instances of the interfaces

    They are used to run the model on concrete inputs. *)

(** A self-delimiting byte format for [pyobj]. *)
Module RefPickle.

Fixpoint unary (n : nat) : bytes :=
  match n with
  | O => [x00]
  | S n' => x01 :: unary n'
  end.

Definition enc_Z (z : Z) : bytes :=
  (if (z <? 0)%Z then "-"%byte else "+"%byte) :: unary (Z.abs_nat z).

Definition enc_string (s : string) : bytes :=
  unary (length (list_byte_of_string s)) ++ list_byte_of_string s.

Definition enc_key (k : pykey) : bytes :=
  match k with
  | KInt z => "i"%byte :: enc_Z z
  | KStr s => "s"%byte :: enc_string s
  end.

Fixpoint encode (o : pyobj) : bytes :=
  match o with
  | PyNone => ["N"%byte]
  | PyBool true => ["T"%byte]
  | PyBool false => ["F"%byte]
  | PyInt z => "I"%byte :: enc_Z z
  | PyStr s => "S"%byte :: enc_string s
  | PyList l => "L"%byte :: unary (length l) ++ concat (map encode l)
  | PyDict d =>
      "D"%byte :: unary (length d)
        ++ concat (map (fun kv => enc_key (fst kv) ++ encode (snd kv)) d)
  end.

Fixpoint read_unary (bs : bytes) : option (nat * bytes) :=
  match bs with
  | x00 :: r => Some (O, r)
  | x01 :: r => match read_unary r with
                | Some (n, r') => Some (S n, r')
                | None => None
                end
  | _ => None
  end.

Definition read_Z (bs : bytes) : option (Z * bytes) :=
  match bs with
  | sign :: r =>
      match read_unary r with
      | Some (n, r') =>
          if Byte.eqb sign "+"%byte then Some (Z.of_nat n, r')
          else if Byte.eqb sign "-"%byte then Some ((- Z.of_nat n)%Z, r')
          else None
      | None => None
      end
  | [] => None
  end.

Definition read_string (bs : bytes) : option (string * bytes) :=
  match read_unary bs with
  | Some (n, r) =>
      if Nat.leb n (length r)
      then Some (string_of_list_byte (firstn n r), skipn n r)
      else None
  | None => None
  end.

Definition read_key (bs : bytes) : option (pykey * bytes) :=
  match bs with
  | tag :: r =>
      if Byte.eqb tag "i"%byte then
        match read_Z r with
        | Some (z, r') => Some (KInt z, r')
        | None => None
        end
      else if Byte.eqb tag "s"%byte then
        match read_string r with
        | Some (s, r') => Some (KStr s, r')
        | None => None
        end
      else None
  | [] => None
  end.

Fixpoint read_n {A} (rd : bytes -> option (A * bytes)) (n : nat)
    (bs : bytes) : option (list A * bytes) :=
  match n with
  | O => Some ([], bs)
  | S n' => match rd bs with
            | Some (x, r) => match read_n rd n' r with
                             | Some (xs, r') => Some (x :: xs, r')
                             | None => None
                             end
            | None => None
            end
  end.

Definition read_item (rd : bytes -> option (pyobj * bytes)) (bs : bytes)
  : option ((pykey * pyobj) * bytes) :=
  match read_key bs with
  | Some (k, r) => match rd r with
                   | Some (v, r') => Some ((k, v), r')
                   | None => None
                   end
  | None => None
  end.

Fixpoint decode (fuel : nat) (bs : bytes) : option (pyobj * bytes) :=
  match fuel with
  | O => None
  | S fuel' =>
      match bs with
      | [] => None
      | tag :: r =>
          if Byte.eqb tag "N"%byte then Some (PyNone, r)
          else if Byte.eqb tag "T"%byte then Some (PyBool true, r)
          else if Byte.eqb tag "F"%byte then Some (PyBool false, r)
          else if Byte.eqb tag "I"%byte then
            match read_Z r with
            | Some (z, r') => Some (PyInt z, r')
            | None => None
            end
          else if Byte.eqb tag "S"%byte then
            match read_string r with
            | Some (s, r') => Some (PyStr s, r')
            | None => None
            end
          else if Byte.eqb tag "L"%byte then
            match read_unary r with
            | Some (n, r') =>
                match read_n (decode fuel') n r' with
                | Some (l, r'') => Some (PyList l, r'')
                | None => None
                end
            | None => None
            end
          else if Byte.eqb tag "D"%byte then
            match read_unary r with
            | Some (n, r') =>
                match read_n (read_item (decode fuel')) n r' with
                | Some (d, r'') => Some (PyDict d, r'')
                | None => None
                end
            | None => None
            end
          else None
      end
  end.

Definition dumps (o : pyobj) : bytes := encode o.

(** An empty input ends before any value; other malformed inputs are
    unpickling errors. *)
Definition loads (bs : bytes) : result pyobj :=
  match bs with
  | [] => Err EOFError
  | _ :: _ => match decode (length bs) bs with
              | Some (o, _) => Ok o
              | None => Err UnpicklingError
              end
  end.

Definition instance : Pickle :=
  {| pickle_dumps := dumps; pickle_loads := loads |}.

End RefPickle.

(** A counter as generator state: the draws cycle through the range. *)
Definition ref_random : Random :=
  {| rng := nat;
     randint := fun a b g =>
       ((a + Z.of_nat g mod (b - a + 1))%Z, S g) |}.

(** A transport that counts its calls; it accepts any string as token and
    refuses to deliver to a negative chat id. *)
Definition ref_telegram : Telegram :=
  {| net := nat;
     client_new := fun tok =>
       match tok with
       | PyStr _ => None
       | _ => Some (TelegramError "Invalid token")
       end;
     api_exec := fun c n =>
       match c with
       | SendMessage (PyInt z) _ _ =>
           if (z <? 0)%Z then (Some (TelegramError "Chat not found"), S n)
           else (None, S n)
       | SendMessage _ _ _ => (Some (TelegramError "Chat not found"), S n)
       | ReplyText _ _ => (None, S n)
       end |}.

(** The configuration has been written: the file at [filepath] holds the
    pickled current pair. *)
Definition persisted {P : Pickle} {R : Random} {T : Telegram}
    (s : State) : Prop :=
  fs_read (fs s) (filepath (config s))
  = Ok (pickle_dumps (config_obj (config s))).

Definition ref_state (c : Config) (root : node) (pending : list Update)
  : @State ref_random ref_telegram :=
  @mkState ref_random ref_telegram c root [] [] O O [] pending [] false.

(** ** Concrete bots *)

Definition example_path : path := ["data"; "telegram_config.pickle"].

(** No credential, no recipient, nothing on disk. *)
Definition fresh_bot : @State ref_random ref_telegram :=
  ref_state (mkConfig example_path PyNone (PyDict [])) (Dir []) [].

(** A credential, no recipient. *)
Definition keyed_bot : @State ref_random ref_telegram :=
  ref_state (mkConfig example_path (PyStr "123:abc") (PyDict [])) (Dir []) [].

(** The empty string as credential, no recipient. *)
Definition blank_token_bot : @State ref_random ref_telegram :=
  ref_state (mkConfig example_path (PyStr "") (PyDict [])) (Dir []) [].

(** A credential and three recipients; the second cannot be reached. *)
Definition broadcast_bot : @State ref_random ref_telegram :=
  ref_state
    (mkConfig example_path (PyStr "123:abc")
       (of_registry [(1, "Ann"); (-2, "Bea"); (3, "Cy")]%Z))
    (Dir []) [].

Definition hello : Message := mkMessage 7 (Some "Dan") "hello".

(** A credential, and a chat that first sends a greeting and then the
    password that the reference generator produces first. *)
Definition registering_bot : @State ref_random ref_telegram :=
  ref_state (mkConfig example_path (PyStr "123:abc") (PyDict []))
    (Dir [])
    [TextMessage hello; OtherUpdate;
     TextMessage (mkMessage 7 (Some "Dan") "01234567")].

(** A predicate that accepts nothing but never says [False]. *)
Definition always_zero : Message -> @M ref_random ref_telegram pyobj :=
  fun _ => ret (PyInt 0).

(** ** Notions used to describe whole runs *)

(** A name other than the empty one, ["."] and [".."].  The file system
    above is faithful for paths made of such names: it does not resolve
    ["."] and [".."]. *)
Definition plain_name (c : string) : Prop :=
  c <> "" /\ c <> "." /\ c <> "..".

Definition plain_path (p : path) : Prop := Forall plain_name p.

(** The keys of a dictionary, in insertion order. *)
Definition dict_keys (d : pydict) : list pykey := map fst d.

(** [dispatcher.chat_data] after the text of [msg] has been recorded:
    the expression of [chat_data_update]. *)
Definition note_message (cd : pydict) (msg : Message) : pydict :=
  let per_chat := match dict_get cd (KInt (chat_id msg)) with
                  | Some (PyDict d) => d
                  | _ => []
                  end in
  dict_setitem (KInt (chat_id msg))
    (PyDict (dict_setitem (KStr "msg") (PyStr (text msg)) per_chat)) cd.

(** The text messages among the updates. *)
Fixpoint texts (us : list Update) : list Message :=
  match us with
  | [] => []
  | TextMessage msg :: rest => msg :: texts rest
  | OtherUpdate :: rest => texts rest
  end.

(** The reply that [handle_msg] sends for a result of the predicate. *)
Definition verdict (res : pyobj) : string :=
  if is_False res then "Invalid!" else "Accepted.".

(** The password that the registration flow draws in generator state
    [g]. *)
Definition password_at {R : Random} (g : rng) : string :=
  String.concat "" (map str_of_int (fst (draws 8 g))).

(** The chats and the token that a configuration has in common with a
    given registry. *)
Definition same_chats (d : pydict) (tok : pyobj) (c : Config) : Prop :=
  token c = tok
  /\ exists d', client_ids c = PyDict d' /\ dict_keys d' = dict_keys d.

(** A bot whose registry holds one chat, and an inbox with messages of
    another chat only. *)
Definition dan_bot : @State ref_random ref_telegram :=
  ref_state
    (mkConfig example_path (PyStr "123:abc") (of_registry [(7%Z, "Dan")]))
    (Dir [])
    [TextMessage (mkMessage 8 (Some "Eve") "01234567"); OtherUpdate;
     TextMessage (mkMessage 8 (Some "Eve") "hello")].

(** A bot with a credential and a chat that only sends a greeting. *)
Definition chatting_bot : @State ref_random ref_telegram :=
  ref_state (mkConfig example_path (PyStr "123:abc") (PyDict []))
    (Dir []) [TextMessage hello; OtherUpdate].

(** A predicate without effects that accepts the text "open". *)
Definition is_open (msg : Message) : pyobj :=
  PyBool (String.eqb (text msg) "open").

Definition open_msg : Message := mkMessage 7 (Some "Dan") "open".

(** A bot with a credential and a chat that greets and then says
    "open". *)
Definition open_bot : @State ref_random ref_telegram :=
  ref_state (mkConfig example_path (PyStr "123:abc") (PyDict []))
    (Dir [])
    [TextMessage hello; TextMessage open_msg].

(* ===================================================================== *)
(** * Part II: properties *)
(* ===================================================================== *)

(** ** Association lists *)

Section AssocFacts.
Context {K V : Type} (eqb : K -> K -> bool).
Hypothesis eqb_eq : forall a b, eqb a b = true <-> a = b.

Lemma eqb_refl' : forall a, eqb a a = true.
Proof. intro a. apply eqb_eq. reflexivity. Qed.

Lemma eqb_neq' : forall a b, a <> b -> eqb a b = false.
Proof.
  intros a b Hab. destruct (eqb a b) eqn:E; [|reflexivity].
  apply eqb_eq in E. contradiction.
Qed.

Lemma assoc_get_set_same :
  forall (k : K) (v : V) l, assoc_get eqb k (assoc_set eqb k v l) = Some v.
Proof.
  intros k v l. induction l as [|[k' v'] l IH]; simpl.
  - rewrite eqb_refl'. reflexivity.
  - destruct (eqb k' k) eqn:E; simpl; rewrite E; [reflexivity|exact IH].
Qed.

Lemma assoc_get_set_other :
  forall (k k2 : K) (v : V) l,
    k2 <> k -> assoc_get eqb k2 (assoc_set eqb k v l) = assoc_get eqb k2 l.
Proof.
  intros k k2 v l Hne. induction l as [|[k' v'] l IH]; simpl.
  - rewrite (eqb_neq' k k2) by congruence. reflexivity.
  - destruct (eqb k' k) eqn:E; simpl.
    + apply eqb_eq in E. subst k'.
      rewrite (eqb_neq' k k2) by congruence. reflexivity.
    + destruct (eqb k' k2); [reflexivity|exact IH].
Qed.

(** Assigning to a key never drops a key. *)
Lemma assoc_set_keeps :
  forall (k k2 : K) (v : V) l,
    assoc_get eqb k2 l <> None ->
    assoc_get eqb k2 (assoc_set eqb k v l) <> None.
Proof.
  intros k k2 v l. induction l as [|[k' v'] l IH]; simpl; intro H.
  - contradiction.
  - destruct (eqb k' k) eqn:E; simpl;
      destruct (eqb k' k2) eqn:E2; try discriminate; auto.
Qed.

(** Assigning to a key that is absent appends the entry. *)
Lemma assoc_set_fresh :
  forall (k : K) (v : V) l,
    assoc_get eqb k l = None -> assoc_set eqb k v l = l ++ [(k, v)].
Proof.
  intros k v l. induction l as [|[k' v'] l IH]; simpl; intro H.
  - reflexivity.
  - destruct (eqb k' k); [discriminate|]. rewrite IH by exact H.
    reflexivity.
Qed.
End AssocFacts.

Lemma key_eqb_eq : forall a b, key_eqb a b = true <-> a = b.
Proof.
  intros [x|s] [y|t]; simpl; split; intro H; try discriminate.
  - apply Z.eqb_eq in H. congruence.
  - inversion H. apply Z.eqb_refl.
  - apply String.eqb_eq in H. congruence.
  - inversion H. apply String.eqb_refl.
Qed.

Lemma dict_get_setitem_same :
  forall k v d, dict_get (dict_setitem k v d) k = Some v.
Proof. intros. apply (assoc_get_set_same key_eqb key_eqb_eq). Qed.

Lemma dict_get_setitem_other :
  forall k k2 v d,
    k2 <> k -> dict_get (dict_setitem k v d) k2 = dict_get d k2.
Proof. intros. apply (assoc_get_set_other key_eqb key_eqb_eq). assumption. Qed.

Lemma entry_get_set_same :
  forall c n es, entry_get c (entry_set c n es) = Some n.
Proof. intros. apply (assoc_get_set_same String.eqb String.eqb_eq). Qed.

(** ** File system *)

Lemma fs_write_stat :
  forall p n data n',
    fs_write n p data = Ok n' -> fs_stat n' p = Ok (File data).
Proof.
  induction p as [|c p IH]; intros n data n' H; simpl in *.
  - destruct n; inversion H. reflexivity.
  - destruct n as [|es]; [discriminate|].
    destruct (entry_get c es) as [n1|] eqn:E.
    + destruct (fs_write n1 p data) as [n2|] eqn:W; inversion H; subst.
      simpl. rewrite entry_get_set_same. eapply IH. exact W.
    + destruct p; inversion H; subst. simpl.
      rewrite entry_get_set_same. reflexivity.
Qed.

Lemma fs_write_read :
  forall p n data n',
    fs_write n p data = Ok n' -> fs_read n' p = Ok data.
Proof.
  intros p n data n' H. unfold fs_read.
  rewrite (fs_write_stat _ _ _ _ H). reflexivity.
Qed.

(** [writable n p]: no component of [p] but the last goes through a regular
    file, and [p] itself does not name a directory. *)
Fixpoint writable (n : node) (p : path) : bool :=
  match p with
  | [] => match n with File _ => true | Dir _ => false end
  | c :: p' =>
      match n with
      | File _ => false
      | Dir es => match entry_get c es with
                  | Some n' => writable n' p'
                  | None => true
                  end
      end
  end.

Lemma parent_cons :
  forall c c2 (p : path), parent (c :: c2 :: p) = c :: parent (c2 :: p).
Proof. reflexivity. Qed.

Lemma fs_write_step :
  forall c (p : path) es n1 data,
    entry_get c es = Some n1 ->
    fs_write (Dir es) (c :: p) data =
    match fs_write n1 p data with
    | Ok n2 => Ok (Dir (entry_set c n2 es))
    | Err e => Err e
    end.
Proof. intros c p es n1 data E. simpl. rewrite E. reflexivity. Qed.

Lemma fs_makedirs_step :
  forall c (p : path) es n1,
    entry_get c es = Some n1 ->
    fs_makedirs (Dir es) (c :: p) =
    match fs_makedirs n1 p with
    | Ok n2 => Ok (Dir (entry_set c n2 es))
    | Err e => Err e
    end.
Proof. intros c p es n1 E. simpl. rewrite E. reflexivity. Qed.

Lemma fs_makedirs_new :
  forall c (p : path) es,
    entry_get c es = None ->
    fs_makedirs (Dir es) (c :: p) = Ok (Dir (entry_set c (fresh_dirs p) es)).
Proof. intros c p es E. simpl. rewrite E. reflexivity. Qed.

Lemma fs_write_fresh_dirs :
  forall (p : path) c data,
    exists n, fs_write (fresh_dirs (parent (c :: p))) (c :: p) data = Ok n.
Proof.
  induction p as [|c2 p IH]; intros c data.
  - simpl. eexists. reflexivity.
  - rewrite parent_cons.
    destruct (IH c2 data) as [n Hn].
    change (fresh_dirs (c :: parent (c2 :: p)))
      with (Dir [(c, fresh_dirs (parent (c2 :: p)))]).
    rewrite (fs_write_step c (c2 :: p) _ (fresh_dirs (parent (c2 :: p)))).
    + rewrite Hn. eexists. reflexivity.
    + unfold entry_get. simpl. rewrite String.eqb_refl. reflexivity.
Qed.

(** Writing succeeds at once, or fails for a missing directory that
    [os.makedirs] then creates so that the second attempt succeeds. *)
Lemma fs_write_or_makedirs :
  forall p n data,
    writable n p = true ->
    (exists n', fs_write n p data = Ok n') \/
    (fs_write n p data = Err FileNotFoundError /\
     exists n1 n2, fs_makedirs n (parent p) = Ok n1 /\
                   fs_write n1 p data = Ok n2).
Proof.
  induction p as [|c p IH]; intros n data Hw; simpl in Hw.
  - destruct n; [|discriminate]. left. eexists. reflexivity.
  - destruct n as [|es]; [discriminate|].
    destruct (entry_get c es) as [n1|] eqn:E.
    + rewrite (fs_write_step c p es n1 data E).
      destruct (IH n1 data Hw) as [[n' Hn']|[Hfnf [m1 [m2 [Hmk Hwr]]]]].
      * left. rewrite Hn'. eexists. reflexivity.
      * right. rewrite Hfnf. split; [reflexivity|].
        destruct p as [|c2 p].
        { simpl in Hfnf. destruct n1; discriminate. }
        rewrite parent_cons.
        rewrite (fs_makedirs_step c _ es n1 E), Hmk.
        eexists. eexists. split; [reflexivity|].
        rewrite (fs_write_step c (c2 :: p) _ m1 data)
          by apply entry_get_set_same.
        rewrite Hwr. reflexivity.
    + destruct p as [|c2 p].
      * left. simpl. rewrite E. eexists. reflexivity.
      * right. split; [simpl; rewrite E; reflexivity|].
        rewrite parent_cons. rewrite (fs_makedirs_new c _ es E).
        destruct (fs_write_fresh_dirs p c2 data) as [m Hm].
        eexists. eexists. split; [reflexivity|].
        rewrite (fs_write_step c (c2 :: p) _ _ data
                   (entry_get_set_same c _ es)).
        rewrite Hm. reflexivity.
Qed.

(** ** The reference instances satisfy the laws *)

Section PyobjInduction.
Variable Q : pyobj -> Prop.
Hypothesis HNone : Q PyNone.
Hypothesis HBool : forall b, Q (PyBool b).
Hypothesis HInt : forall z, Q (PyInt z).
Hypothesis HStr : forall s, Q (PyStr s).
Hypothesis HList : forall l, Forall Q l -> Q (PyList l).
Hypothesis HDict : forall d, Forall (fun kv => Q (snd kv)) d -> Q (PyDict d).

Fixpoint pyobj_nested_ind (o : pyobj) : Q o :=
  match o with
  | PyNone => HNone
  | PyBool b => HBool b
  | PyInt z => HInt z
  | PyStr s => HStr s
  | PyList l =>
      HList l ((fix go (l : list pyobj) : Forall Q l :=
                  match l with
                  | [] => Forall_nil Q
                  | x :: r => Forall_cons x (pyobj_nested_ind x) (go r)
                  end) l)
  | PyDict d =>
      HDict d ((fix go (d : pydict) : Forall (fun kv => Q (snd kv)) d :=
                  match d with
                  | [] => Forall_nil _
                  | (k, v) :: r =>
                      Forall_cons (k, v) (pyobj_nested_ind v) (go r)
                  end) d)
  end.
End PyobjInduction.

Lemma read_unary_unary :
  forall n r, RefPickle.read_unary (RefPickle.unary n ++ r) = Some (n, r).
Proof.
  induction n as [|n IH]; intro r; simpl.
  - reflexivity.
  - rewrite IH. reflexivity.
Qed.

Lemma read_Z_enc_Z :
  forall z r, RefPickle.read_Z (RefPickle.enc_Z z ++ r) = Some (z, r).
Proof.
  intros z r. unfold RefPickle.enc_Z, RefPickle.read_Z.
  destruct (z <? 0)%Z eqn:E; simpl; rewrite read_unary_unary.
  - apply Z.ltb_lt in E. f_equal. f_equal. rewrite Zabs2Nat.id_abs. lia.
  - apply Z.ltb_ge in E. f_equal. f_equal. rewrite Zabs2Nat.id_abs. lia.
Qed.

Lemma read_string_enc_string :
  forall s r,
    RefPickle.read_string (RefPickle.enc_string s ++ r) = Some (s, r).
Proof.
  intros s r. unfold RefPickle.enc_string, RefPickle.read_string.
  rewrite <- app_assoc, read_unary_unary.
  assert (Hle : Nat.leb (length (list_byte_of_string s))
                        (length (list_byte_of_string s ++ r)) = true).
  { apply Nat.leb_le. rewrite length_app. lia. }
  rewrite Hle.
  rewrite firstn_app, Nat.sub_diag, firstn_all, firstn_O, app_nil_r.
  rewrite skipn_app, Nat.sub_diag, skipn_all, skipn_O.
  rewrite string_of_list_byte_of_string. reflexivity.
Qed.

Lemma read_key_enc_key :
  forall k r, RefPickle.read_key (RefPickle.enc_key k ++ r) = Some (k, r).
Proof.
  intros [z|s] r; cbn [RefPickle.enc_key app RefPickle.read_key];
    simpl Byte.eqb; cbv iota.
  - rewrite read_Z_enc_Z. reflexivity.
  - rewrite read_string_enc_string. reflexivity.
Qed.

Lemma read_n_concat :
  forall (A : Type) (rd : bytes -> option (A * bytes)) (enc : A -> bytes)
         (l : list A) (r : bytes),
    Forall (fun x => forall r', rd (enc x ++ r') = Some (x, r')) l ->
    RefPickle.read_n rd (length l) (concat (map enc l) ++ r) = Some (l, r).
Proof.
  intros A rd enc l r H. induction H as [|x l Hx _ IH]; simpl.
  - reflexivity.
  - rewrite <- app_assoc, Hx, IH. reflexivity.
Qed.

Lemma length_concat_ge :
  forall (A : Type) (enc : A -> bytes) (l : list A) (x : A),
    In x l -> length (enc x) <= length (concat (map enc l)).
Proof.
  intros A enc l x. induction l as [|y l IH]; simpl; intro H.
  - contradiction.
  - rewrite length_app. destruct H as [->|H]; [lia|].
    specialize (IH H). lia.
Qed.

Lemma decode_encode :
  forall o fuel r,
    length (RefPickle.encode o) <= fuel ->
    RefPickle.decode fuel (RefPickle.encode o ++ r) = Some (o, r).
Proof.
  induction o as [|b|z|s|l IH|d IH] using pyobj_nested_ind;
    intros fuel r Hfuel.
  - destruct fuel; [simpl in Hfuel; lia|]. reflexivity.
  - destruct fuel; [destruct b; simpl in Hfuel; lia|].
    destruct b; reflexivity.
  - destruct fuel; [simpl in Hfuel; lia|].
    cbn [RefPickle.encode app RefPickle.decode]. simpl Byte.eqb. cbv iota.
    rewrite read_Z_enc_Z. reflexivity.
  - destruct fuel; [simpl in Hfuel; lia|].
    cbn [RefPickle.encode app RefPickle.decode]. simpl Byte.eqb. cbv iota.
    rewrite read_string_enc_string. reflexivity.
  - destruct fuel; [simpl in Hfuel; lia|].
    cbn [RefPickle.encode] in *. cbn [app RefPickle.decode].
    simpl Byte.eqb. cbv iota.
    rewrite <- app_assoc, read_unary_unary.
    simpl length in Hfuel. rewrite length_app in Hfuel.
    rewrite read_n_concat; [reflexivity|].
    rewrite Forall_forall in IH |- *. intros x Hx r'.
    apply IH; [exact Hx|].
    pose proof (length_concat_ge _ RefPickle.encode l x Hx). lia.
  - destruct fuel; [simpl in Hfuel; lia|].
    cbn [RefPickle.encode] in *. cbn [app RefPickle.decode].
    simpl Byte.eqb. cbv iota.
    rewrite <- app_assoc, read_unary_unary.
    simpl length in Hfuel. rewrite length_app in Hfuel.
    rewrite read_n_concat
      with (enc := fun kv => RefPickle.enc_key (fst kv)
                               ++ RefPickle.encode (snd kv));
      [reflexivity|].
    rewrite Forall_forall in IH |- *. intros [k v] Hx r'.
    unfold RefPickle.read_item. simpl fst. simpl snd.
    rewrite <- app_assoc, read_key_enc_key.
    rewrite (IH (k, v) Hx); [reflexivity|].
    pose proof (length_concat_ge _
                  (fun kv => RefPickle.enc_key (fst kv)
                               ++ RefPickle.encode (snd kv)) d (k, v) Hx)
      as Hlen.
    cbn [fst snd] in Hlen. rewrite length_app in Hlen. cbn [snd].
    unfold bytes, pydict in *. lia.
Qed.

Lemma encode_nonempty : forall o, RefPickle.encode o <> [].
Proof. intros [|[]| | | |]; discriminate. Qed.

Lemma ref_loads_dumps :
  forall o, RefPickle.loads (RefPickle.dumps o) = Ok o.
Proof.
  intro o. unfold RefPickle.loads, RefPickle.dumps.
  destruct (RefPickle.encode o) as [|b bs] eqn:E.
  - exfalso. exact (encode_nonempty o E).
  - rewrite <- E.
    pose proof (decode_encode o (length (RefPickle.encode o)) []
                  (Nat.le_refl _)) as H.
    rewrite app_nil_r in H. rewrite H. reflexivity.
Qed.

Lemma ref_pickle_laws : PickleLaws RefPickle.instance.
Proof. constructor. exact ref_loads_dumps. Qed.

Lemma ref_random_laws : RandomLaws ref_random.
Proof.
  constructor. intros a b g Hab. simpl.
  pose proof (Z.mod_pos_bound (Z.of_nat g) (b - a + 1) ltac:(lia)). lia.
Qed.

(** ** The store and the facade *)

Section FacadeFacts.
Context {P : Pickle} {R : Random} {T : Telegram}.

Notation "x <- c1 ;; c2" := (bind c1 (fun x => c2))
  (at level 61, c1 at next level, right associativity).
Notation "c1 ;; c2" := (bind c1 (fun _ => c2))
  (at level 61, right associativity).

Ltac case_fs :=
  match goal with
  | |- context [fs_write ?a ?b ?c] => destruct (fs_write a b c) eqn:?
  | |- context [fs_makedirs ?a ?b] => destruct (fs_makedirs a b) eqn:?
  | |- context [match ?e with FileNotFoundError => _ | _ => _ end] =>
      is_var e; destruct e
  end.

Ltac unfold_monad :=
  unfold dump_to, os_makedirs in *;
  unfold bind, ret, raise, gets, modify, lift, try_except, fs_update in *.

(** *** Loading *)

Lemma Config_init_loaded :
  forall root fp data d,
    fs_read root fp = Ok data ->
    pickle_loads data = Ok (PyDict d) ->
    Config_init root fp =
    Ok (mkConfig fp
          (match dict_get d (KStr "token") with
           | Some v => v | None => PyNone end)
          (match dict_get d (KStr "client_ids") with
           | Some v => v | None => PyNone end)).
Proof.
  intros root fp data d Hr Hl. unfold Config_init. rewrite Hr. simpl.
  rewrite Hl. simpl.
  destruct (dict_get d (KStr "token")); destruct (dict_get d (KStr "client_ids"));
    reflexivity.
Qed.

(** An unpickling error becomes a [ConfigError]. *)
Lemma Config_init_unpickling_error :
  forall root fp data,
    fs_read root fp = Ok data ->
    pickle_loads data = Err UnpicklingError ->
    Config_init root fp = Err (ConfigError "Invalid configuration file!").
Proof.
  intros root fp data Hr Hl. unfold Config_init. rewrite Hr. simpl.
  rewrite Hl. reflexivity.
Qed.

(** Any other exception of [pickle.load] leaves [Config.__init__] as it
    is. *)
Lemma Config_init_other_error :
  forall root fp data e,
    fs_read root fp = Ok data ->
    pickle_loads data = Err e ->
    e <> UnpicklingError -> e <> FileNotFoundError ->
    Config_init root fp = Err e.
Proof.
  intros root fp data e Hr Hl H1 H2. unfold Config_init. rewrite Hr. simpl.
  rewrite Hl. simpl. destruct e; try reflexivity; contradiction.
Qed.

(** A pickled value that is not a dictionary has no [get]. *)
Lemma Config_init_not_a_dict :
  forall root fp data o,
    fs_read root fp = Ok data ->
    pickle_loads data = Ok o ->
    (forall d, o <> PyDict d) ->
    Config_init root fp = Err AttributeError.
Proof.
  intros root fp data o Hr Hl Hd. unfold Config_init. rewrite Hr. simpl.
  rewrite Hl. destruct o; try reflexivity. exfalso. eapply Hd. reflexivity.
Qed.

(** *** Saving *)

(** [write_config] touches nothing but the file system. *)
Lemma write_config_frame :
  forall s, snd (write_config s) = set_fs (fs (snd (write_config s))) s.
Proof.
  intro s. unfold write_config. unfold_monad.
  destruct s as [c r i l g n a b d t]. simpl.
  repeat (case_fs; simpl; try reflexivity).
Qed.

Lemma write_config_config :
  forall s, config (snd (write_config s)) = config s.
Proof. intro s. rewrite write_config_frame. reflexivity. Qed.

(** When [write_config] returns, the file holds the pickled dictionary. *)
Lemma write_config_persisted :
  forall s s', write_config s = (Return tt, s') -> persisted s'.
Proof.
  intros s s' H. unfold persisted.
  pose proof (write_config_config s) as Hc. rewrite H in Hc. simpl in Hc.
  rewrite Hc. clear Hc.
  unfold write_config in H. unfold_monad. simpl in H.
  destruct (fs_write (fs s) _ _) as [r1|e] eqn:W1; simpl in H.
  - inversion H; subst. simpl. eapply fs_write_read. exact W1.
  - destruct e; simpl in H; try discriminate.
    destruct (fs_makedirs (fs s) _) as [r2|e2]; simpl in H; [|discriminate].
    destruct (fs_write r2 _ _) as [r3|e3] eqn:W2; simpl in H;
      [|discriminate].
    inversion H; subst. simpl. eapply fs_write_read. exact W2.
Qed.

(** [write_config] returns whenever the path can be written at all:
    missing directories are created. *)
Lemma write_config_returns :
  forall s,
    writable (fs s) (filepath (config s)) = true ->
    exists s', write_config s = (Return tt, s').
Proof.
  intros s Hw. unfold write_config. unfold_monad. simpl.
  destruct (fs_write_or_makedirs _ _
              (pickle_dumps (config_obj (config s))) Hw)
    as [[n' Hn']|[Hfnf [n1 [n2 [Hmk Hwr]]]]].
  - rewrite Hn'. eexists. reflexivity.
  - rewrite Hfnf. simpl. rewrite Hmk. simpl. rewrite Hwr.
    eexists. reflexivity.
Qed.

(** *** Claims on the store *)



(** C7 (the code departs from it): a file that is present but empty makes
    [pickle.load] raise [EOFError], which [Config.__init__] does not catch:
    the caller gets [EOFError], and that is not a [ConfigError]. *)
Theorem Config_init_empty_file :
  forall root fp,
    fs_read root fp = Ok [] ->
    pickle_loads [] = Err EOFError ->
    Config_init root fp = Err EOFError
    /\ isinstance_ConfigError EOFError = false.
Proof.
  intros root fp Hr Hl. split; [|reflexivity].
  apply (Config_init_other_error root fp [] EOFError Hr Hl); discriminate.
Qed.

(** C2: for every credential (a string or absent) and every registry,
    saving and then loading from the same path returns the pair that was
    saved.  Saving returns whenever the path can be written at all. *)
Theorem write_config_then_Config_init :
  forall (PL : PickleLaws P) (c : option string) (r : registry) (s : State),
    token (config s) = of_credential c ->
    client_ids (config s) = of_registry r ->
    (writable (fs s) (filepath (config s)) = true ->
     exists s', write_config s = (Return tt, s'))
    /\
    (forall s',
       write_config s = (Return tt, s') ->
       Config_init (fs s') (filepath (config s))
       = Ok (mkConfig (filepath (config s))
                      (of_credential c) (of_registry r))).
Proof.
  intros PL c r s Ht Hr. split; [apply write_config_returns|].
  intros s' Hw.
  pose proof (write_config_persisted s s' Hw) as Hp.
  pose proof (write_config_config s) as Hc. rewrite Hw in Hc. simpl in Hc.
  unfold persisted in Hp. rewrite Hc in Hp.
  rewrite (Config_init_loaded _ _ _ _ Hp (pickle_roundtrip _)).
  simpl. rewrite Ht, Hr. reflexivity.
Qed.

(** *** Sending *)

Lemma truthy_of_credential :
  forall c, truthy (of_credential c) = false <-> c = None \/ c = Some "".
Proof.
  intros [t|]; simpl; split; intro H.
  - right. apply negb_false_iff in H. apply String.eqb_eq in H.
    subst. reflexivity.
  - destruct H as [H|H]; [discriminate|]. inversion H. reflexivity.
  - left. reflexivity.
  - reflexivity.
Qed.

Lemma truthy_nonempty_string :
  forall t, t <> "" -> truthy (PyStr t) = true.
Proof.
  intros t H. simpl. apply negb_true_iff.
  destruct (String.eqb t "") eqn:E; [|reflexivity].
  apply String.eqb_eq in E. contradiction.
Qed.

(** C1 (amended): [send_message] fails with [NoTokenError] when the
    credential is absent or the empty string, and with [NoClientIdsError]
    when the credential is a non-empty string and there is no recipient
    (no id given, or an empty list, and an empty registry).  In both cases
    the state is left as it was: no transport call is attempted. *)
Theorem send_message_guards :
  forall (s : State) (message : string) (parse_mode : pyobj)
         (c : option string) (ids : option (list Z)) (r : registry),
    token (config s) = of_credential c ->
    client_ids (config s) = of_registry r ->
    (c = None \/ c = Some "" ->
     send_message message parse_mode (of_ids ids) s
     = (Raise (NoTokenError NoToken_msg), s))
    /\
    (forall t, c = Some t -> t <> "" ->
     ids = None \/ ids = Some [] -> r = [] ->
     send_message message parse_mode (of_ids ids) s
     = (Raise (NoClientIdsError NoClientIds_msg), s)).
Proof.
  intros s message parse_mode c ids r Ht Hr. split.
  - intro Hc. apply truthy_of_credential in Hc.
    unfold send_message. unfold_monad. simpl. rewrite Ht, Hc. reflexivity.
  - intros t Hc Hne Hids Hreg. subst c r.
    unfold send_message. unfold_monad. cbv beta iota zeta.
    rewrite Ht. cbn [of_credential].
    rewrite (truthy_nonempty_string t Hne).
    unfold effective_recipients. rewrite Hr.
    destruct Hids as [->| ->]; reflexivity.
Qed.

Lemma send_each_delivered :
  forall targets message parse_mode s n,
    all_delivered (map (fun c => SendMessage c message parse_mode) targets)
                  (network s) = Some n ->
    send_each targets message parse_mode s
    = (Return tt,
       set_network n
         (api_log s
          ++ map (fun c => SendMessage c message parse_mode) targets) s).
Proof.
  induction targets as [|x targets IH]; intros message parse_mode s n H.
  - simpl in H. inversion H; subst. simpl. unfold ret.
    rewrite app_nil_r. destruct s; reflexivity.
  - simpl in H.
    destruct (api_exec (SendMessage x message parse_mode) (network s))
      as [[e|] n1] eqn:E; [discriminate|].
    cbn [send_each]. unfold bind at 1. unfold api at 1. rewrite E.
    rewrite (IH message parse_mode _ n) by exact H.
    simpl. rewrite <- app_assoc. reflexivity.
Qed.

Lemma send_each_aborts :
  forall pre x post message parse_mode s n1 e n2,
    all_delivered (map (fun c => SendMessage c message parse_mode) pre)
                  (network s) = Some n1 ->
    api_exec (SendMessage x message parse_mode) n1 = (Some e, n2) ->
    send_each (pre ++ x :: post) message parse_mode s
    = (Raise e,
       set_network n2
         (api_log s
          ++ map (fun c => SendMessage c message parse_mode) (pre ++ [x]))
         s).
Proof.
  induction pre as [|y pre IH];
    intros x post message parse_mode s n1 e n2 Hpre Hx.
  - simpl in Hpre. inversion Hpre; subst.
    cbn [app send_each]. unfold bind at 1. unfold api at 1.
    rewrite Hx. reflexivity.
  - simpl in Hpre.
    destruct (api_exec (SendMessage y message parse_mode) (network s))
      as [[e1|] n0] eqn:E; [discriminate|].
    cbn [app send_each]. unfold bind at 1. unfold api at 1. rewrite E.
    rewrite (IH x post message parse_mode _ n1 e n2) by assumption.
    simpl. rewrite <- app_assoc. reflexivity.
Qed.

(** C5: when the transport raises for one recipient of a broadcast,
    [send_message] raises that exception; the transport has been called for
    the recipients before it and for the failing one, in order, and for no
    later one; nothing is done about the messages already sent. *)
Theorem send_message_aborts_on_failure :
  forall (s : State) (message : string) (parse_mode ids : pyobj)
         (pre post : list pyobj) (x : pyobj) (n1 n2 : net) (e : exn),
    truthy (token (config s)) = true ->
    client_new (token (config s)) = None ->
    truthy (effective_recipients ids (config s)) = true ->
    py_iter (effective_recipients ids (config s)) = Ok (pre ++ x :: post) ->
    all_delivered (map (fun c => SendMessage c message parse_mode) pre)
                  (network s) = Some n1 ->
    api_exec (SendMessage x message parse_mode) n1 = (Some e, n2) ->
    send_message message parse_mode ids s
    = (Raise e,
       set_network n2
         (api_log s
          ++ map (fun c => SendMessage c message parse_mode) (pre ++ [x]))
         s).
Proof.
  intros s message parse_mode ids pre post x n1 n2 e Htok Hnew Heff Hiter
         Hpre Hx.
  unfold send_message. unfold bind at 1. unfold gets at 1.
  rewrite Htok, Heff. simpl negb. cbv iota.
  unfold new_client. rewrite Hnew.
  unfold bind at 1. unfold ret at 1.
  unfold bind at 1. rewrite Hiter. unfold lift, ret.
  eapply send_each_aborts; eassumption.
Qed.

(** *** The monad *)

Lemma bind_return_inv :
  forall (A B : Type) (m : M A) (k : A -> M B) s b s',
    bind m k s = (Return b, s') ->
    exists a s1, m s = (Return a, s1) /\ k a s1 = (Return b, s').
Proof.
  intros A B m k s b s' H. unfold bind in H.
  destruct (m s) as [[a|e|] s1]; try discriminate.
  exists a, s1. split; [reflexivity|exact H].
Qed.

Lemma persisted_ext :
  forall s s' : State,
    config s' = config s -> fs s' = fs s -> persisted s -> persisted s'.
Proof.
  intros s s' Hc Hf H. unfold persisted in *. rewrite Hc, Hf. exact H.
Qed.

(** *** Changing the registry *)

Lemma client_ids_update_dict :
  forall client (s : State) d,
    client_ids (config s) = PyDict d ->
    client_ids_update client s
    = (Return tt,
       set_config (mkConfig (filepath (config s)) (token (config s))
                            (PyDict (dict_update d client))) s).
Proof.
  intros client s d H. unfold client_ids_update. unfold_monad.
  cbv beta iota zeta. rewrite H. reflexivity.
Qed.

(** [client_ids_update] changes the configuration only. *)
Lemma client_ids_update_frame :
  forall client (s : State),
    snd (client_ids_update client s)
    = set_config (config (snd (client_ids_update client s))) s.
Proof.
  intros client s. unfold client_ids_update. unfold_monad.
  cbv beta iota zeta.
  destruct (py_update (client_ids (config s)) client); simpl;
    destruct s; reflexivity.
Qed.

Lemma add_client_registry :
  forall client (s : State) d,
    client_ids (config s) = PyDict d ->
    client_ids (config (snd (add_client client s)))
    = PyDict (dict_update d client).
Proof.
  intros client s d H. unfold add_client. unfold bind.
  rewrite (client_ids_update_dict client s d H).
  match goal with
  | |- context [write_config ?s1] =>
      pose proof (write_config_config s1) as Hc;
      destruct (write_config s1) as [[[]|e|] s2]
  end; simpl in *; rewrite Hc; reflexivity.
Qed.

(** C9: [add_client] with one pair [{k: v}] gives the key [k] the label
    [v] and leaves the label of every other key as it was; a key that was
    absent is appended.  Adding [{5: "Alice"}] and then [{5: "Bob"}] leaves
    5 mapped to ["Bob"], the other keys untouched, and gives exactly
    [{5: "Bob"}] when the registry was empty. *)
Theorem add_client_last_write_wins :
  forall (s : State) (d : pydict),
    client_ids (config s) = PyDict d ->
    (forall k v,
       exists d',
         client_ids (config (snd (add_client [(k, v)] s))) = PyDict d'
         /\ dict_get d' k = Some v
         /\ (forall k', k' <> k -> dict_get d' k' = dict_get d k')
         /\ (dict_get d k = None -> d' = d ++ [(k, v)]))
    /\
    (exists d2,
       client_ids
         (config
            (snd (add_client [(KInt 5, PyStr "Bob")]
                    (snd (add_client [(KInt 5, PyStr "Alice")] s)))))
       = PyDict d2
       /\ dict_get d2 (KInt 5) = Some (PyStr "Bob")
       /\ (forall k', k' <> KInt 5 -> dict_get d2 k' = dict_get d k')
       /\ (d = [] -> d2 = [(KInt 5, PyStr "Bob")])).
Proof.
  intros s d H. split.
  - intros k v. exists (dict_setitem k v d).
    rewrite (add_client_registry _ s d H). simpl. repeat split.
    + apply dict_get_setitem_same.
    + intros k' Hk. apply dict_get_setitem_other. exact Hk.
    + intro Hnone. apply assoc_set_fresh. exact Hnone.
  - exists (dict_setitem (KInt 5) (PyStr "Bob")
              (dict_setitem (KInt 5) (PyStr "Alice") d)).
    rewrite (add_client_registry _ _ _ (add_client_registry _ s d H)).
    simpl. repeat split.
    + apply dict_get_setitem_same.
    + intros k' Hk. rewrite !dict_get_setitem_other by exact Hk.
      reflexivity.
    + intros ->. reflexivity.
Qed.

(** *** Persistence *)

Lemma set_bot_token_persisted :
  forall tok (s s' : State),
    set_bot_token tok s = (Return tt, s') -> persisted s'.
Proof.
  intros tok s s' H. unfold set_bot_token in H.
  apply bind_return_inv in H. destruct H as [t [s1 [_ H]]].
  apply bind_return_inv in H. destruct H as [cfg [s2 [_ H]]].
  apply bind_return_inv in H. destruct H as [[] [s3 [_ H]]].
  eapply write_config_persisted. exact H.
Qed.

Lemma add_client_persisted :
  forall client (s s' : State),
    add_client client s = (Return tt, s') -> persisted s'.
Proof.
  intros client s s' H. unfold add_client in H.
  apply bind_return_inv in H. destruct H as [[] [s1 [_ H]]].
  eapply write_config_persisted. exact H.
Qed.

(** A listen session returns only after a handler has raised SIGTERM. *)
Lemma poll_returns_after_sigterm :
  forall (h : Message -> M pyobj) (Q : State -> Prop),
    (forall s s', Q s -> config s' = config s -> fs s' = fs s -> Q s') ->
    (forall msg s o s',
        sigterm s = false -> h msg s = (o, s') -> sigterm s' = true ->
        Q s') ->
    forall pending s s',
      sigterm s = false ->
      poll h pending s = (Return tt, s') -> Q s'.
Proof.
  intros h Q Hext Hh. induction pending as [|u rest IH]; intros s s' Hs H.
  - discriminate.
  - cbn [poll] in H. unfold bind at 1 in H. unfold modify at 1 in H.
    unfold bind at 1 in H.
    destruct u as [msg|]; cbn [dispatch] in H.
    + destruct (h msg (set_inbox rest s)) as [o s1] eqn:E.
      assert (Hstep : sigterm s1 = true -> Q s1).
      { intro Hterm. eapply Hh; [|exact E|exact Hterm]. exact Hs. }
      assert (Hnext :
                (stop <- gets sigterm ;;
                 if stop then modify (set_sigterm false)
                 else poll h rest) s1 = (Return tt, s') -> Q s').
      { intro H1. unfold bind, gets in H1.
        destruct (sigterm s1) eqn:Et.
        - unfold modify in H1. inversion H1; subst.
          eapply Hext; [apply Hstep; reflexivity| |]; reflexivity.
        - eapply IH; eassumption. }
      destruct o; try discriminate; apply Hnext; exact H.
    + unfold ret in H. unfold bind, gets in H.
      change (sigterm (set_inbox rest s)) with (sigterm s) in H.
      rewrite Hs in H. eapply IH; [|exact H]. exact Hs.
Qed.

Lemma is_False_spec : forall r, is_False r = true <-> r = PyBool false.
Proof.
  intro r. split; intro H.
  - destruct r as [|[]| | | |]; try discriminate. reflexivity.
  - subst. reflexivity.
Qed.

Lemma is_False_other : forall r, r <> PyBool false -> is_False r = false.
Proof.
  intros r H. destruct (is_False r) eqn:E; [|reflexivity].
  apply is_False_spec in E. contradiction.
Qed.

Lemma handle_passwd_spec :
  forall password msg (s : State) o s',
    handle_passwd password msg s = (o, s') ->
    sigterm s' = sigterm s
    /\ (forall r, o = Return r -> is_False r = false -> persisted s').
Proof.
  intros password msg s o s' H. unfold handle_passwd in H.
  destruct (String.eqb (text msg) password).
  - unfold bind at 1 in H.
    match type of H with
    | context [client_ids_update ?c s] =>
        pose proof (client_ids_update_frame c s) as F1;
        destruct (client_ids_update c s) as [o1 s1]
    end.
    simpl in F1.
    assert (Hs1 : sigterm s1 = sigterm s) by (rewrite F1; reflexivity).
    destruct o1 as [[]|e|];
      try (inversion H; subst; split; [exact Hs1|intros; discriminate]).
    unfold bind at 1 in H.
    pose proof (write_config_frame s1) as F2.
    destruct (write_config s1) as [o2 s2] eqn:E2. simpl in F2.
    assert (Hs2 : sigterm s2 = sigterm s)
      by (rewrite F2; simpl; exact Hs1).
    destruct o2 as [[]|e|];
      try (inversion H; subst; split; [exact Hs2|intros; discriminate]).
    unfold ret in H. inversion H; subst. split; [exact Hs2|].
    intros r _ _. eapply write_config_persisted. exact E2.
  - unfold ret in H. inversion H; subst. split; [reflexivity|].
    intros r Hr Hf. inversion Hr; subst. discriminate.
Qed.

(** [judge] raises SIGTERM only after the predicate has returned something
    other than [False]. *)
Lemma judge_sigterm :
  forall (f : Message -> M pyobj) msg,
    (forall s0 o s1,
        f msg s0 = (o, s1) ->
        sigterm s1 = sigterm s0
        /\ (forall r, o = Return r -> is_False r = false -> persisted s1)) ->
    forall s o s',
      sigterm s = false -> judge f msg s = (o, s') -> sigterm s' = true ->
      persisted s'.
Proof.
  intros f msg Hf s o s' Hs H Hterm. unfold judge in H.
  unfold bind at 1 in H.
  change (chat_data_update msg s)
    with (Return tt, snd (chat_data_update msg s)) in H.
  cbv iota beta in H. unfold bind at 1 in H.
  destruct (f msg (snd (chat_data_update msg s))) as [o1 s1] eqn:E1.
  destruct (Hf _ _ _ E1) as [Hs1 Hp1].
  change (sigterm (snd (chat_data_update msg s))) with (sigterm s) in Hs1.
  rewrite Hs in Hs1.
  destruct o1 as [r|e|];
    try (inversion H; subst; congruence).
  destruct (is_False r) eqn:Er.
  - unfold bind, api in H.
    destruct (api_exec (ReplyText msg "Invalid!") (network s1))
      as [[e|] n]; unfold ret in H; inversion H; subst;
      simpl in Hterm; congruence.
  - unfold bind at 1 in H. unfold api in H.
    destruct (api_exec (ReplyText msg "Accepted.") (network s1))
      as [[e|] n].
    + inversion H; subst. simpl in Hterm. congruence.
    + unfold bind, raise_sigterm, modify, ret in H.
      inversion H; subst.
      eapply persisted_ext; [| |apply (Hp1 r eq_refl Er)]; reflexivity.
Qed.

Lemma handle_msg_sigterm :
  forall password msg (s : State) o s',
    sigterm s = false ->
    handle_msg (handle_passwd password) msg s = (o, s') ->
    sigterm s' = true -> persisted s'.
Proof.
  intros password msg. unfold handle_msg.
  apply judge_sigterm. apply handle_passwd_spec.
Qed.

Lemma script_handle_msg_sigterm :
  forall password msg (s : State) o s',
    sigterm s = false ->
    script_handle_msg (handle_passwd password) msg s = (o, s') ->
    sigterm s' = true -> persisted s'.
Proof.
  intros password msg s o s' Hs H Hterm. unfold script_handle_msg in H.
  unfold bind at 1 in H. unfold gets at 1 in H.
  unfold bind at 1 in H. unfold lift in H.
  destruct (py_contains (client_ids (config s)) (KInt (chat_id msg)))
    as [known|e].
  - unfold ret at 1 in H. destruct known.
    + simpl negb in H. cbv iota in H.
      eapply (judge_sigterm (handle_passwd password) msg);
        [apply handle_passwd_spec|exact Hs|exact H|exact Hterm].
    + simpl negb in H. cbv iota in H.
      unfold ret in H. inversion H; subst. congruence.
  - unfold raise in H. inversion H; subst. congruence.
Qed.

Lemma session_persisted :
  forall (h : Message -> M pyobj),
    (forall msg s o s',
        sigterm s = false -> h msg s = (o, s') -> sigterm s' = true ->
        persisted s') ->
    forall (s : State) cd s',
      session h s = (Return cd, s') -> persisted s'.
Proof.
  intros h Hh s cd s' H. unfold session in H.
  apply bind_return_inv in H. destruct H as [cfg [s1 [_ H]]].
  apply bind_return_inv in H. destruct H as [[] [s2 [_ H]]].
  apply bind_return_inv in H. destruct H as [[] [s3 [_ H]]].
  apply bind_return_inv in H. destruct H as [[] [s4 [Hidle H]]].
  unfold gets in H. inversion H; subst. clear H.
  unfold idle in Hidle.
  apply bind_return_inv in Hidle. destruct Hidle as [[] [s5 [Hm Hidle]]].
  apply bind_return_inv in Hidle.
  destruct Hidle as [pending [s6 [Hg Hpoll]]].
  unfold modify in Hm. inversion Hm; subst. clear Hm.
  unfold gets in Hg. inversion Hg; subst. clear Hg.
  eapply (poll_returns_after_sigterm h persisted);
    [|exact Hh| |exact Hpoll].
  - intros a b Ha Hc Hf. eapply persisted_ext; eassumption.
  - reflexivity.
Qed.

Lemma register_client_persisted :
  forall (s s' : State),
    register_client s = (Return tt, s') -> persisted s'.
Proof.
  intros s s' H. unfold register_client in H.
  apply bind_return_inv in H. destruct H as [password [s1 [_ H]]].
  apply bind_return_inv in H. destruct H as [[] [s2 [_ H]]].
  apply bind_return_inv in H. destruct H as [listen [s3 [Hget H]]].
  apply bind_return_inv in H. destruct H as [cd [s4 [Hrun H]]].
  unfold ret in H. inversion H; subst. clear H.
  unfold get_message, bind, gets in Hget.
  destruct (negb (truthy (token (config s2)))); [discriminate|].
  unfold ret in Hget. inversion Hget; subst. clear Hget.
  unfold wrapper in Hrun.
  eapply session_persisted; [|exact Hrun].
  intros msg. apply handle_msg_sigterm.
Qed.

Lemma script_register_client_persisted :
  forall (s s' : State),
    script_register_client s = (Return tt, s') -> persisted s'.
Proof.
  intros s s' H. unfold script_register_client in H.
  apply bind_return_inv in H. destruct H as [password [s1 [_ H]]].
  apply bind_return_inv in H. destruct H as [[] [s2 [_ H]]].
  apply bind_return_inv in H. destruct H as [listen [s3 [Hget H]]].
  apply bind_return_inv in H. destruct H as [cd [s4 [Hrun H]]].
  unfold ret in H. inversion H; subst. clear H.
  unfold script_get_message, bind, gets in Hget.
  destruct (negb (truthy (token (config s2)))); [discriminate|].
  destruct (negb (truthy (client_ids (config s2)))); [discriminate|].
  unfold ret in Hget. inversion Hget; subst. clear Hget.
  unfold script_wrapper in Hrun.
  eapply session_persisted; [|exact Hrun].
  intros msg. apply script_handle_msg_sigterm.
Qed.

(** A persisted configuration is what a new [Config] on its path
    loads. *)
Lemma Config_init_persisted :
  forall (PL : PickleLaws P) (s : State),
    persisted s -> Config_init (fs s) (filepath (config s)) = Ok (config s).
Proof.
  intros PL s Hp. unfold persisted in Hp.
  rewrite (Config_init_loaded _ _ _ _ Hp (pickle_roundtrip _)).
  destruct (config s). reflexivity.
Qed.

(** C3: when an operation that changes the credential or the registry
    ([set_bot_token], [add_client] of either module, the registration
    flow of either module) returns, the file at the configured path holds
    the pickled dictionary [{"token": ..., "client_ids": ...}] of the
    current credential and registry, so that a new [Config] on that path
    loads exactly the current pair; so it does already when
    [handle_passwd], which updates the registry inside the registration
    flow, returns after an update. *)
Theorem mutation_is_persisted :
  (forall (m : mutation) (s s' : State),
      perform m s = (Return tt, s') ->
      fs_read (fs s') (filepath (config s'))
      = Ok (pickle_dumps
              (PyDict [(KStr "token", token (config s'));
                       (KStr "client_ids", client_ids (config s'))]))
      /\ (PickleLaws P ->
          Config_init (fs s') (filepath (config s')) = Ok (config s')))
  /\
  (forall password msg (s s' : State) r,
      handle_passwd password msg s = (Return r, s') ->
      r <> PyBool false ->
      fs_read (fs s') (filepath (config s'))
      = Ok (pickle_dumps
              (PyDict [(KStr "token", token (config s'));
                       (KStr "client_ids", client_ids (config s'))]))
      /\ (PickleLaws P ->
          Config_init (fs s') (filepath (config s')) = Ok (config s'))).
Proof.
  assert (Hboth : forall s' : State,
             persisted s' ->
             fs_read (fs s') (filepath (config s'))
             = Ok (pickle_dumps
                     (PyDict [(KStr "token", token (config s'));
                              (KStr "client_ids", client_ids (config s'))]))
             /\ (PickleLaws P ->
                 Config_init (fs s') (filepath (config s'))
                 = Ok (config s'))).
  { intros s' Hp. split; [exact Hp|].
    intro PL. apply (Config_init_persisted PL s' Hp). }
  split.
  - intros m s s' H. apply Hboth.
    destruct m as [tok|client|client| |]; simpl in H.
    + eapply set_bot_token_persisted. exact H.
    + eapply add_client_persisted. exact H.
    + unfold script_add_client in H.
      destruct client as [[|kv d]|].
      * eapply script_register_client_persisted. exact H.
      * apply bind_return_inv in H. destruct H as [[] [s1 [_ H]]].
        eapply write_config_persisted. exact H.
      * eapply script_register_client_persisted. exact H.
    + eapply register_client_persisted. exact H.
    + eapply script_register_client_persisted. exact H.
  - intros password msg s s' r H Hr. apply Hboth.
    apply (proj2 (handle_passwd_spec password msg s _ s' H) r eq_refl).
    apply is_False_other. exact Hr.
Qed.

(** *** Listening *)

(** C4 (amended): in [telegram_utils/main.py], [get_message] has one
    precondition, a credential that is a non-empty string: it raises
    [NoTokenError] when the credential is absent or empty, and otherwise
    returns the wrapper that opens the session, whatever the registry is.
    In [telegram_bot.py], [get_message] has the same first precondition
    and a second one: with a non-empty credential and an empty registry it
    raises [NoClientIdsError]; only with a non-empty registry does it
    return the wrapper. *)
Theorem get_message_preconditions :
  forall (s : State) (f : Message -> M pyobj) (c : option string),
    token (config s) = of_credential c ->
    (c = None \/ c = Some "" ->
     get_message f s = (Raise (NoTokenError NoToken_msg), s)
     /\ script_get_message f s = (Raise (NoTokenError NoToken_msg), s))
    /\
    (forall t, c = Some t -> t <> "" ->
     get_message f s = (Return (wrapper f), s)
     /\ (forall r : registry,
           client_ids (config s) = of_registry r ->
           (r = [] ->
            script_get_message f s
            = (Raise (NoClientIdsError NoClientIds_msg), s))
           /\ (r <> [] ->
               script_get_message f s = (Return (script_wrapper f), s)))).
Proof.
  intros s f c Ht. split.
  - intro Hc. apply truthy_of_credential in Hc.
    unfold get_message, script_get_message. unfold_monad.
    cbv beta iota zeta. rewrite Ht, Hc. split; reflexivity.
  - intros t Hc Hne. subst c.
    unfold get_message, script_get_message. unfold_monad.
    cbv beta iota zeta. rewrite Ht. cbn [of_credential].
    rewrite (truthy_nonempty_string t Hne). simpl negb. cbv iota.
    split; [reflexivity|]. intros r Hr. rewrite Hr. split.
    + intros ->. reflexivity.
    + intro Hnil. destruct r as [|e r]; [contradiction|]. reflexivity.
Qed.

Lemma judge_accepts :
  forall (f : Message -> M pyobj) msg (s : State) r s2 n3,
    f msg (snd (chat_data_update msg s)) = (Return r, s2) ->
    r <> PyBool false ->
    api_exec (ReplyText msg "Accepted.") (network s2) = (None, n3) ->
    judge f msg s
    = (Return (PyBool true),
       set_sigterm true (after_reply msg "Accepted." n3 s2)).
Proof.
  intros f msg s r s2 n3 Hf Hr Hapi. unfold judge.
  unfold bind at 1.
  change (chat_data_update msg s)
    with (Return tt, snd (chat_data_update msg s)).
  cbv iota beta. unfold bind at 1. rewrite Hf.
  rewrite (is_False_other r Hr).
  unfold bind at 1. unfold api. rewrite Hapi. reflexivity.
Qed.

Lemma judge_rejects :
  forall (f : Message -> M pyobj) msg (s : State) s2 n3,
    f msg (snd (chat_data_update msg s)) = (Return (PyBool false), s2) ->
    api_exec (ReplyText msg "Invalid!") (network s2) = (None, n3) ->
    judge f msg s
    = (Return (PyBool false), after_reply msg "Invalid!" n3 s2).
Proof.
  intros f msg s s2 n3 Hf Hapi. unfold judge.
  unfold bind at 1.
  change (chat_data_update msg s)
    with (Return tt, snd (chat_data_update msg s)).
  cbv iota beta. unfold bind at 1. rewrite Hf. cbn [is_False].
  unfold bind at 1. unfold api. rewrite Hapi. reflexivity.
Qed.

(** One step of the polling loop on a text message. *)
Lemma poll_text_step :
  forall (h : Message -> M pyobj) msg rest (s : State) r s1,
    h msg (set_inbox rest s) = (Return r, s1) ->
    poll h (TextMessage msg :: rest) s
    = if sigterm s1 then (Return tt, set_sigterm false s1)
      else poll h rest s1.
Proof.
  intros h msg rest s r s1 H. cbn [poll].
  unfold bind at 1. unfold modify at 1. unfold bind at 1.
  cbn [dispatch]. rewrite H. unfold bind, gets.
  destruct (sigterm s1); reflexivity.
Qed.

Lemma script_handle_msg_known :
  forall (f : Message -> M pyobj) msg (s : State),
    py_contains (client_ids (config s)) (KInt (chat_id msg)) = Ok true ->
    script_handle_msg f msg s = judge f msg s.
Proof.
  intros f msg s H. unfold script_handle_msg.
  unfold bind at 1. unfold gets at 1. unfold bind at 1.
  rewrite H. reflexivity.
Qed.

(** C10: in a listen session the result of the predicate is compared with
    [False] by identity.  When the predicate returns anything else for an
    inbound text message, the bot replies "Accepted." and the session
    returns, leaving the later updates unread; when it returns [False],
    the bot replies "Invalid!" and the session goes on with the next
    update.  This holds for [handle_msg] of [telegram_utils/main.py], and
    for [handle_msg] of [telegram_bot.py] on messages of registered
    chats. *)
Theorem listen_tests_identity_with_False :
  forall (f : Message -> M pyobj) (msg : Message) (rest : list Update)
         (s : State) (r : pyobj) (s2 : State) (n3 : net),
    f msg (snd (chat_data_update msg (set_inbox rest s))) = (Return r, s2) ->
    (r <> PyBool false ->
     api_exec (ReplyText msg "Accepted.") (network s2) = (None, n3) ->
     poll (handle_msg f) (TextMessage msg :: rest) s
     = (Return tt, set_sigterm false (after_reply msg "Accepted." n3 s2))
     /\ (py_contains (client_ids (config s)) (KInt (chat_id msg)) = Ok true ->
         poll (script_handle_msg f) (TextMessage msg :: rest) s
         = (Return tt,
            set_sigterm false (after_reply msg "Accepted." n3 s2))))
    /\
    (r = PyBool false ->
     api_exec (ReplyText msg "Invalid!") (network s2) = (None, n3) ->
     sigterm s2 = false ->
     poll (handle_msg f) (TextMessage msg :: rest) s
     = poll (handle_msg f) rest (after_reply msg "Invalid!" n3 s2)
     /\ (py_contains (client_ids (config s)) (KInt (chat_id msg)) = Ok true ->
         poll (script_handle_msg f) (TextMessage msg :: rest) s
         = poll (script_handle_msg f) rest
             (after_reply msg "Invalid!" n3 s2))).
Proof.
  intros f msg rest s r s2 n3 Hf. split.
  - intros Hr Hapi.
    pose proof (judge_accepts f msg (set_inbox rest s) r s2 n3 Hf Hr Hapi)
      as Hj.
    split.
    + rewrite (poll_text_step (handle_msg f) msg rest s _ _ Hj).
      reflexivity.
    + intro Hk.
      rewrite (poll_text_step (script_handle_msg f) msg rest s
                 (PyBool true)
                 (set_sigterm true (after_reply msg "Accepted." n3 s2))).
      * reflexivity.
      * rewrite script_handle_msg_known by exact Hk. exact Hj.
  - intros Hr Hapi Hs2. subst r.
    pose proof (judge_rejects f msg (set_inbox rest s) s2 n3 Hf Hapi)
      as Hj.
    split.
    + rewrite (poll_text_step (handle_msg f) msg rest s _ _ Hj).
      change (sigterm (after_reply msg "Invalid!" n3 s2))
        with (sigterm s2).
      rewrite Hs2. reflexivity.
    + intro Hk.
      rewrite (poll_text_step (script_handle_msg f) msg rest s
                 (PyBool false) (after_reply msg "Invalid!" n3 s2)).
      * change (sigterm (after_reply msg "Invalid!" n3 s2))
          with (sigterm s2).
        rewrite Hs2. reflexivity.
      * rewrite script_handle_msg_known by exact Hk. exact Hj.
Qed.

(** *** Registration *)

Lemma str_of_int_digit :
  forall d, (0 <= d <= 9)%Z ->
    exists c, str_of_int d = String c EmptyString
              /\ is_ascii_digit c = true.
Proof.
  intros d Hd.
  assert (H : (d = 0 \/ d = 1 \/ d = 2 \/ d = 3 \/ d = 4 \/ d = 5
               \/ d = 6 \/ d = 7 \/ d = 8 \/ d = 9)%Z) by lia.
  repeat (destruct H as [H|H]; [subst d; eexists; split; reflexivity|]).
  subst d. eexists. split; reflexivity.
Qed.

Lemma draws_range :
  forall (RL : RandomLaws R) n g,
    Forall (fun z => (0 <= z <= 9)%Z) (fst (draws n g)).
Proof.
  intros RL. induction n as [|n IH]; intro g; simpl.
  - constructor.
  - pose proof (randint_range 0 9 g ltac:(lia)) as Hr.
    destruct (randint 0 9 g) as [z g1]. simpl in Hr.
    specialize (IH g1). destruct (draws n g1) as [zs g2]. simpl in *.
    constructor; assumption.
Qed.

Lemma draws_length : forall n g, length (fst (draws n g)) = n.
Proof.
  induction n as [|n IH]; intro g; simpl.
  - reflexivity.
  - destruct (randint 0 9 g) as [z g1]. specialize (IH g1).
    destruct (draws n g1) as [zs g2]. simpl in *. congruence.
Qed.

Lemma draw_digits_draws :
  forall n (s : State),
    draw_digits n s
    = (Return (map str_of_int (fst (draws n (generator s)))),
       set_generator (snd (draws n (generator s))) s).
Proof.
  induction n as [|n IH]; intro s.
  - simpl. unfold ret. destruct s; reflexivity.
  - cbn [draw_digits draws]. unfold bind at 1.
    destruct (randint 0 9 (generator s)) as [z g1].
    unfold bind at 1. rewrite IH.
    change (generator (set_generator g1 s)) with g1.
    destruct (draws n g1) as [zs g2]. reflexivity.
Qed.

Lemma concat_single_char :
  forall c x l,
    String.concat "" (String c EmptyString :: x :: l)
    = String c (String.concat "" (x :: l)).
Proof. reflexivity. Qed.

Lemma concat_digits :
  forall zs,
    Forall (fun z => (0 <= z <= 9)%Z) zs ->
    String.length (String.concat "" (map str_of_int zs)) = length zs
    /\ (forall c,
          In c (list_ascii_of_string (String.concat "" (map str_of_int zs)))
          -> is_ascii_digit c = true).
Proof.
  induction 1 as [|z zs Hz Hzs [IHlen IHdig]].
  - split; [reflexivity|]. intros c [].
  - destruct (str_of_int_digit z Hz) as [c0 [Hc0 Hd0]].
    destruct zs as [|z2 zs].
    + cbn [map String.concat]. rewrite Hc0.
      split; [reflexivity|]. intros c [<-|[]]. exact Hd0.
    + change (map str_of_int (z :: z2 :: zs))
        with (str_of_int z :: str_of_int z2 :: map str_of_int zs).
      change (map str_of_int (z2 :: zs))
        with (str_of_int z2 :: map str_of_int zs) in IHlen, IHdig.
      rewrite Hc0, concat_single_char. split.
      * cbn [String.length]. rewrite IHlen. reflexivity.
      * intros c Hin. cbn [list_ascii_of_string] in Hin.
        destruct Hin as [<-|Hin]; [exact Hd0|].
        apply IHdig. exact Hin.
Qed.

(** C8: every run of the registration flow, in either module, first draws
    a password from the current generator state: eight calls of
    [randint(0, 9)], joined.  The password has exactly 8 characters, all
    of them ASCII digits; the generator is left advanced by the eight
    draws, and the flow goes on with this password. *)
Theorem registration_password :
  forall (RL : RandomLaws R) (s : State),
    exists password,
      let s1 := set_generator (snd (draws 8 (generator s))) s in
      new_password s = (Return password, s1)
      /\ password
         = String.concat "" (map str_of_int (fst (draws 8 (generator s))))
      /\ String.length password = 8
      /\ (forall c, In c (list_ascii_of_string password) ->
                    is_ascii_digit c = true)
      /\ register_client s
         = (logger_warning (password_notice password) ;;
            listen <- get_message (handle_passwd password) ;;
            listen ;;
            ret tt) s1
      /\ script_register_client s
         = (logger_warning (password_notice password) ;;
            listen <- script_get_message (handle_passwd password) ;;
            listen ;;
            ret tt) s1.
Proof.
  intros RL s.
  exists (String.concat "" (map str_of_int (fst (draws 8 (generator s))))).
  cbv zeta.
  assert (Hnew :
            new_password s
            = (Return (String.concat ""
                         (map str_of_int (fst (draws 8 (generator s))))),
               set_generator (snd (draws 8 (generator s))) s)).
  { unfold new_password. unfold bind. rewrite draw_digits_draws.
    reflexivity. }
  destruct (concat_digits _ (draws_range RL 8 (generator s)))
    as [Hlen Hdig].
  rewrite draws_length in Hlen.
  repeat split.
  - exact Hnew.
  - exact Hlen.
  - exact Hdig.
  - unfold register_client. unfold bind at 1. rewrite Hnew. reflexivity.
  - unfold script_register_client. unfold bind at 1. rewrite Hnew.
    reflexivity.
Qed.

End FacadeFacts.

(* ===================================================================== *)
(** * Part II, continued: further properties of the code *)
(* ===================================================================== *)

(** ** More on the file system *)

Lemma entry_get_set_other :
  forall c c2 n es, c2 <> c -> entry_get c2 (entry_set c n es) = entry_get c2 es.
Proof.
  intros. apply (assoc_get_set_other String.eqb String.eqb_eq). assumption.
Qed.

Lemma fs_read_Ok :
  forall n q d, fs_read n q = Ok d <-> fs_stat n q = Ok (File d).
Proof.
  intros n q d. unfold fs_read. split; intro H.
  - destruct (fs_stat n q) as [[d'|es]|e]; inversion H. reflexivity.
  - rewrite H. reflexivity.
Qed.

(** Writing one file leaves every other regular file as it was. *)
Lemma fs_write_keeps_files :
  forall p n data n' q d,
    fs_write n p data = Ok n' -> q <> p ->
    fs_stat n q = Ok (File d) -> fs_stat n' q = Ok (File d).
Proof.
  induction p as [|c p IH]; intros n data n' q d Hw Hq Hs.
  - destruct n as [d0|es]; [|discriminate].
    destruct q as [|c2 q]; [contradiction|]. discriminate.
  - destruct n as [d0|es]; [discriminate|].
    destruct q as [|c2 q]; [discriminate|].
    cbn [fs_stat] in Hs.
    destruct (entry_get c2 es) as [m|] eqn:E2; [|discriminate].
    destruct (entry_get c es) as [n1|] eqn:E.
    + rewrite (fs_write_step c p es n1 data E) in Hw.
      destruct (fs_write n1 p data) as [n2|] eqn:W; inversion Hw; subst.
      cbn [fs_stat].
      destruct (String.eqb_spec c2 c) as [->|Hne].
      * rewrite entry_get_set_same. rewrite E in E2. inversion E2; subst.
        eapply IH; [exact W| |exact Hs]. congruence.
      * rewrite (entry_get_set_other c c2 _ es Hne), E2. exact Hs.
    + simpl in Hw. rewrite E in Hw.
      destruct p; inversion Hw; subst. cbn [fs_stat].
      destruct (String.eqb_spec c2 c) as [->|Hne]; [congruence|].
      rewrite (entry_get_set_other c c2 _ es Hne), E2. exact Hs.
Qed.

(** Creating directories leaves every regular file as it was. *)
Lemma fs_makedirs_keeps_files :
  forall p n n' q d,
    fs_makedirs n p = Ok n' ->
    fs_stat n q = Ok (File d) -> fs_stat n' q = Ok (File d).
Proof.
  induction p as [|c p IH]; intros n n' q d Hm Hs.
  - discriminate.
  - destruct n as [d0|es]; [discriminate|].
    destruct q as [|c2 q]; [discriminate|].
    cbn [fs_stat] in Hs.
    destruct (entry_get c2 es) as [m|] eqn:E2; [|discriminate].
    destruct (entry_get c es) as [n1|] eqn:E.
    + rewrite (fs_makedirs_step c p es n1 E) in Hm.
      destruct (fs_makedirs n1 p) as [n2|] eqn:W; inversion Hm; subst.
      cbn [fs_stat].
      destruct (String.eqb_spec c2 c) as [->|Hne].
      * rewrite entry_get_set_same. rewrite E in E2. inversion E2; subst.
        eapply IH; eassumption.
      * rewrite (entry_get_set_other c c2 _ es Hne), E2. exact Hs.
    + rewrite (fs_makedirs_new c p es E) in Hm. inversion Hm; subst.
      cbn [fs_stat].
      destruct (String.eqb_spec c2 c) as [->|Hne]; [congruence|].
      rewrite (entry_get_set_other c c2 _ es Hne), E2. exact Hs.
Qed.

(** A path that cannot be written fails on a directory in the place of
    the file or on a regular file in the place of a directory. *)
Lemma fs_write_not_writable :
  forall p n data,
    writable n p = false ->
    fs_write n p data = Err IsADirectoryError
    \/ fs_write n p data = Err NotADirectoryError.
Proof.
  induction p as [|c p IH]; intros n data Hw; simpl in Hw.
  - destruct n; [discriminate|]. left. reflexivity.
  - destruct n as [d0|es]; [right; reflexivity|].
    destruct (entry_get c es) as [n1|] eqn:E; [|discriminate].
    rewrite (fs_write_step c p es n1 data E).
    destruct (IH n1 data Hw) as [H|H]; rewrite H; [left|right]; reflexivity.
Qed.

Lemma fs_stat_missing_parent_writable :
  forall p n,
    fs_stat n (parent p) = Err FileNotFoundError -> writable n p = true.
Proof.
  induction p as [|c p IH]; intros n H.
  - discriminate.
  - destruct p as [|c2 p]; [discriminate|].
    rewrite parent_cons in H. cbn [fs_stat] in H.
    destruct n as [d0|es]; [discriminate|].
    cbn [writable]. destruct (entry_get c es) as [n1|]; [|reflexivity].
    apply IH. exact H.
Qed.

Lemma fs_stat_parent_of_file :
  forall p n d,
    p <> [] -> fs_stat n p = Ok (File d) ->
    exists es, fs_stat n (parent p) = Ok (Dir es).
Proof.
  induction p as [|c p IH]; intros n d Hp H; [contradiction|].
  cbn [fs_stat] in H. destruct n as [d0|es]; [discriminate|].
  destruct p as [|c2 p].
  - exists es. reflexivity.
  - rewrite parent_cons. cbn [fs_stat].
    destruct (entry_get c es) as [n1|]; [|discriminate].
    apply (IH n1 d); [discriminate|exact H].
Qed.

Lemma fs_write_on_directory :
  forall p n es data,
    fs_stat n p = Ok (Dir es) -> fs_write n p data = Err IsADirectoryError.
Proof.
  induction p as [|c p IH]; intros n es data H.
  - cbn [fs_stat] in H. inversion H; subst. reflexivity.
  - cbn [fs_stat] in H. destruct n as [d0|es0]; [discriminate|].
    destruct (entry_get c es0) as [n1|] eqn:E; [|discriminate].
    rewrite (fs_write_step c p es0 n1 data E), (IH n1 es data H).
    reflexivity.
Qed.

Lemma fs_write_through_file :
  forall pre n d c post data,
    fs_stat n pre = Ok (File d) ->
    fs_write n (pre ++ c :: post) data = Err NotADirectoryError.
Proof.
  induction pre as [|c1 pre IH]; intros n d c post data H.
  - cbn [fs_stat] in H. inversion H; subst. reflexivity.
  - cbn [fs_stat] in H. destruct n as [d0|es0]; [discriminate|].
    destruct (entry_get c1 es0) as [n1|] eqn:E; [|discriminate].
    cbn [app].
    rewrite (fs_write_step c1 (pre ++ c :: post) es0 n1 data E).
    rewrite (IH n1 d c post data H). reflexivity.
Qed.

Section StoreFacts.
Context {P : Pickle} {R : Random} {T : Telegram}.

Notation "x <- c1 ;; c2" := (bind c1 (fun x => c2))
  (at level 61, c1 at next level, right associativity).
Notation "c1 ;; c2" := (bind c1 (fun _ => c2))
  (at level 61, right associativity).

(** ** More on the store *)

(** [write_config] spelled out on the file system. *)
Lemma write_config_eq :
  forall s : State,
    write_config s
    = let fp := filepath (config s) in
      let data := pickle_dumps (config_obj (config s)) in
      match fs_write (fs s) fp data with
      | Ok r => (Return tt, set_fs r s)
      | Err FileNotFoundError =>
          match fs_makedirs (fs s) (parent fp) with
          | Ok r1 => match fs_write r1 fp data with
                     | Ok r2 => (Return tt, set_fs r2 s)
                     | Err e => (Raise e, set_fs r1 s)
                     end
          | Err e => (Raise e, s)
          end
      | Err e => (Raise e, s)
      end.
Proof.
  intro s. unfold write_config, dump_to, os_makedirs.
  unfold bind, gets, try_except, fs_update. cbv zeta.
  destruct (fs_write (fs s) (filepath (config s))
              (pickle_dumps (config_obj (config s)))) as [r|e];
    [reflexivity|].
  destruct e; try reflexivity.
  destruct (fs_makedirs (fs s) (parent (filepath (config s)))) as [r1|e1];
    [|reflexivity].
  cbn [fs]. unfold set_fs at 1. cbn [fs].
  destruct (fs_write r1 (filepath (config s))
              (pickle_dumps (config_obj (config s)))); reflexivity.
Qed.

(** X1: [Config.__init__] fails with an exception of class [ConfigError]
    exactly when the file is present and [pickle.load] raised
    [UnpicklingError]; the exception is then [ConfigError] itself with the
    message of the source.  ([pickle] raises none of the classes of
    [errors.py].) *)
Theorem Config_init_ConfigError_iff :
  forall root fp e,
    (forall data e', pickle_loads data = Err e' ->
                     isinstance_ConfigError e' = false) ->
    (Config_init root fp = Err e /\ isinstance_ConfigError e = true)
    <->
    (e = ConfigError "Invalid configuration file!"
     /\ exists data, fs_read root fp = Ok data
                     /\ pickle_loads data = Err UnpicklingError).
Proof.
  intros root fp e Hpickle. split.
  - intros [H He]. unfold Config_init in H.
    destruct (fs_read root fp) as [data|e0] eqn:Er.
    + cbn [rbind] in H.
      destruct (pickle_loads data) as [o|e1] eqn:El.
      * cbn [rbind] in H.
        destruct o; cbn in H;
          try (inversion H; subst; discriminate).
        destruct (dict_get d (KStr "token"));
          destruct (dict_get d (KStr "client_ids")); discriminate.
      * pose proof (Hpickle data e1 El) as Hno.
        cbn in H. destruct e1; cbn in H; inversion H; subst;
          try discriminate; try congruence.
        split; [reflexivity|]. exists data.
        split; first [reflexivity|assumption].
    + exfalso. unfold fs_read in Er.
      assert (Hstat : forall p n e2, fs_stat n p = Err e2 ->
                e2 = FileNotFoundError \/ e2 = NotADirectoryError).
      { induction p as [|c p IH]; intros n e2 Hs; [discriminate|].
        cbn [fs_stat] in Hs. destruct n as [d0|es].
        - inversion Hs. right. reflexivity.
        - destruct (entry_get c es) as [n1|].
          + eapply IH. exact Hs.
          + inversion Hs. left. reflexivity. }
      destruct (fs_stat root fp) as [[d0|es]|e2] eqn:Es.
      * discriminate.
      * inversion Er; subst. cbn in H. inversion H; subst. discriminate.
      * inversion Er; subst.
        destruct (Hstat _ _ _ Es) as [->| ->]; cbn in H;
          inversion H; subst; discriminate.
  - intros [-> [data [Hr Hl]]]. split; [|reflexivity].
    apply (Config_init_unpickling_error root fp data Hr Hl).
Qed.

(** X2: [Config.__init__] does not check what the pickled dictionary
    holds: when the key ["client_ids"] is missing the registry is [None],
    not an empty dictionary, and [add_client] on such a bot raises
    [AttributeError] and leaves everything as it was. *)
Theorem Config_init_missing_client_ids :
  forall root fp data d,
    fs_read root fp = Ok data ->
    pickle_loads data = Ok (PyDict d) ->
    dict_get d (KStr "client_ids") = None ->
    exists tok,
      Config_init root fp = Ok (mkConfig fp tok PyNone)
      /\ forall (s : State) client,
           config s = mkConfig fp tok PyNone ->
           add_client client s = (Raise AttributeError, s).
Proof.
  intros root fp data d Hr Hl Hk.
  exists (match dict_get d (KStr "token") with
          | Some v => v | None => PyNone end).
  split.
  - rewrite (Config_init_loaded root fp data d Hr Hl), Hk. reflexivity.
  - intros s client Hc. unfold add_client, client_ids_update.
    unfold bind, gets, lift. rewrite Hc. reflexivity.
Qed.

Lemma perform_persisted :
  forall (m : mutation) (s s' : State),
    perform m s = (Return tt, s') -> persisted s'.
Proof.
  intros m s s' H. destruct m as [tok|client|client| |]; simpl in H.
  - eapply set_bot_token_persisted. exact H.
  - eapply add_client_persisted. exact H.
  - unfold script_add_client in H.
    destruct client as [[|kv d]|].
    + eapply script_register_client_persisted. exact H.
    + apply bind_return_inv in H. destruct H as [[] [s1 [_ H]]].
      eapply write_config_persisted. exact H.
    + eapply script_register_client_persisted. exact H.
  - eapply register_client_persisted. exact H.
  - eapply script_register_client_persisted. exact H.
Qed.

(** X3: after any operation that changes the credential or the registry
    has returned, constructing a bot again on the same path loads exactly
    the configuration in memory, whatever values it holds: the new bot is
    the old one. *)
Theorem reload_after_mutation :
  forall (PL : PickleLaws P) (m : mutation) (s s' : State) (default : path),
    perform m s = (Return tt, s') ->
    TelegramBot_init (Some (filepath (config s'))) default s'
    = (Return tt, s').
Proof.
  intros PL m s s' default H. unfold TelegramBot_init.
  rewrite (Config_init_persisted PL s' (perform_persisted m s s' H)).
  destruct s'. reflexivity.
Qed.

(** X4: [write_config] refuses a path that cannot hold a file, before
    anything is written.  For a path of plain names: when the path names
    a directory it raises [IsADirectoryError], when a part of the path is
    a regular file it raises [NotADirectoryError], and in both cases the
    file system and the rest of the state are as before. *)
Theorem write_config_refuses_bad_path :
  forall (s : State),
    plain_path (filepath (config s)) ->
    ((exists es, fs_stat (fs s) (filepath (config s)) = Ok (Dir es)) ->
     write_config s = (Raise IsADirectoryError, s))
    /\
    ((exists pre c post d,
         filepath (config s) = pre ++ c :: post
         /\ fs_stat (fs s) pre = Ok (File d)) ->
     write_config s = (Raise NotADirectoryError, s)).
Proof.
  intros s _. split.
  - intros [es H]. rewrite write_config_eq. cbv zeta.
    rewrite (fs_write_on_directory _ _ es _ H). reflexivity.
  - intros [pre [c [post [d [Hp H]]]]]. rewrite write_config_eq. cbv zeta.
    rewrite Hp. rewrite (fs_write_through_file pre _ d c post _ H).
    reflexivity.
Qed.

(** X5: [write_config] changes no other file.  For paths of plain names:
    a regular file at a path other than the configuration path reads the
    same afterwards, whether [write_config] returned or raised, also when
    it had to create directories. *)
Theorem write_config_keeps_other_files :
  forall (s : State) o s' q d,
    plain_path (filepath (config s)) ->
    plain_path q ->
    write_config s = (o, s') ->
    q <> filepath (config s) ->
    fs_read (fs s) q = Ok d ->
    fs_read (fs s') q = Ok d.
Proof.
  intros s o s' q d _ _ H Hq Hr. apply fs_read_Ok. apply fs_read_Ok in Hr.
  rewrite write_config_eq in H. cbv zeta in H.
  destruct (fs_write (fs s) _ _) as [r|e] eqn:W1.
  - inversion H; subst. cbn [fs set_fs].
    eapply fs_write_keeps_files; eassumption.
  - destruct e; try (inversion H; subst; exact Hr).
    destruct (fs_makedirs (fs s) _) as [r1|e1] eqn:Mk;
      [|inversion H; subst; exact Hr].
    pose proof (fs_makedirs_keeps_files _ _ _ _ _ Mk Hr) as Hr1.
    destruct (fs_write r1 _ _) as [r2|e2] eqn:W2;
      inversion H; subst; cbn [fs set_fs].
    + eapply fs_write_keeps_files; eassumption.
    + exact Hr1.
Qed.

(** X6: for a configuration path of plain names whose directory is
    missing inside the existing directories (so that [open] fails with
    [FileNotFoundError]), [write_config] creates the directory, with the
    missing directories above it, and then writes the file: it returns,
    the directory exists, and the file holds the pickled dictionary of
    the credential and the registry. *)
Theorem write_config_creates_directories :
  forall (s : State),
    plain_path (filepath (config s)) ->
    fs_stat (fs s) (parent (filepath (config s))) = Err FileNotFoundError ->
    exists s' es,
      write_config s = (Return tt, s')
      /\ fs_stat (fs s') (parent (filepath (config s))) = Ok (Dir es)
      /\ fs_read (fs s') (filepath (config s))
         = Ok (pickle_dumps
                 (PyDict [(KStr "token", token (config s));
                          (KStr "client_ids", client_ids (config s))])).
Proof.
  intros s _ H.
  destruct (write_config_returns s (fs_stat_missing_parent_writable _ _ H))
    as [s' Hw].
  pose proof (write_config_persisted s s' Hw) as Hp.
  pose proof (write_config_config s) as Hc. rewrite Hw in Hc. simpl in Hc.
  unfold persisted in Hp. rewrite Hc in Hp.
  assert (Hne : filepath (config s) <> []).
  { intro E. rewrite E in H. discriminate. }
  destruct (fs_stat_parent_of_file _ _ _ Hne (proj1 (fs_read_Ok _ _ _) Hp))
    as [es Hes].
  exists s', es. repeat split; assumption.
Qed.

(** ** More on the credential and the registry *)

(** [set_bot_token] spelled out: which token is stored, from where. *)
Lemma set_bot_token_eq :
  forall tok (s : State),
    set_bot_token tok s
    = if truthy tok then
        write_config
          (set_config (mkConfig (filepath (config s)) tok
                                (client_ids (config s))) s)
      else
        match stdin s with
        | [] => (Raise EOFError, s)
        | line :: rest =>
            write_config
              (set_config (mkConfig (filepath (config s)) (PyStr line)
                                    (client_ids (config s)))
                          (set_stdin rest s))
        end.
Proof.
  intros tok s. unfold set_bot_token.
  destruct (truthy tok).
  - reflexivity.
  - unfold bind at 1. unfold bind at 1. unfold input.
    destruct (stdin s) as [|line rest]; reflexivity.
Qed.

(** X7: [set_bot_token] stores the token it is given when that is truthy
    and does not read standard input then.  With [None] or the empty
    string it stores the next line of standard input instead, whatever
    that line is; at end of input it raises [EOFError] and nothing has
    changed.  In no case does it change the registry or the path. *)
Theorem set_bot_token_prompts :
  forall tok (s : State),
    (truthy tok = true ->
     token (config (snd (set_bot_token tok s))) = tok
     /\ stdin (snd (set_bot_token tok s)) = stdin s)
    /\ (truthy tok = false -> stdin s = [] ->
        set_bot_token tok s = (Raise EOFError, s))
    /\ (truthy tok = false -> forall line rest, stdin s = line :: rest ->
        token (config (snd (set_bot_token tok s))) = PyStr line
        /\ stdin (snd (set_bot_token tok s)) = rest)
    /\ client_ids (config (snd (set_bot_token tok s)))
       = client_ids (config s)
    /\ filepath (config (snd (set_bot_token tok s)))
       = filepath (config s).
Proof.
  intros tok s. rewrite set_bot_token_eq.
  destruct (truthy tok).
  - split; [intros _; split; rewrite write_config_frame; reflexivity|].
    split; [discriminate|]. split; [discriminate|].
    split; rewrite write_config_frame; reflexivity.
  - split; [discriminate|].
    destruct (stdin s) as [|line rest] eqn:E.
    + split; [reflexivity|]. split; [intros _ l r; discriminate|].
      split; reflexivity.
    + split; [intros _; discriminate|].
      split.
      * intros _ l r Hl. inversion Hl; subst.
        split; rewrite write_config_frame; reflexivity.
      * split; rewrite write_config_frame; reflexivity.
Qed.

Lemma client_ids_update_keeps :
  forall client (s : State),
    token (config (snd (client_ids_update client s))) = token (config s)
    /\ filepath (config (snd (client_ids_update client s)))
       = filepath (config s).
Proof.
  intros client s. unfold client_ids_update, bind, gets, lift.
  destruct (py_update (client_ids (config s)) client);
    split; reflexivity.
Qed.

(** The state that [add_client] leaves: a new configuration and a new
    file system, nothing else. *)
Lemma add_client_frame :
  forall client (s : State),
    exists c r,
      snd (add_client client s) = set_fs r (set_config c s)
      /\ token c = token (config s)
      /\ filepath c = filepath (config s).
Proof.
  intros client s. unfold add_client. unfold bind.
  pose proof (client_ids_update_frame client s) as F1.
  pose proof (client_ids_update_keeps client s) as [Ht Hf].
  destruct (client_ids_update client s) as [o1 s1]. simpl in F1, Ht, Hf.
  destruct o1 as [[]|e|].
  - pose proof (write_config_frame s1) as F2.
    destruct (write_config s1) as [o2 s2]. simpl in F2.
    exists (config s1), (fs s2). split; [|split; assumption].
    simpl. transitivity (set_fs (fs s2) s1); [exact F2|].
    f_equal. exact F1.
  - exists (config s1), (fs s). split; [|split; assumption].
    simpl. transitivity (set_config (config s1) s); [exact F1|].
    destruct s; reflexivity.
  - exists (config s1), (fs s). split; [|split; assumption].
    simpl. transitivity (set_config (config s1) s); [exact F1|].
    destruct s; reflexivity.
Qed.

(** X8: whatever it is given and however it ends, [add_client] of
    [telegram_utils/main.py] leaves the token and the path as they were,
    reads no input, logs nothing, draws no random number and makes no
    transport call: only the registry and the file system can change. *)
Theorem add_client_changes_registry_only :
  forall client (s : State),
    token (config (snd (add_client client s))) = token (config s)
    /\ filepath (config (snd (add_client client s))) = filepath (config s)
    /\ stdin (snd (add_client client s)) = stdin s
    /\ logged (snd (add_client client s)) = logged s
    /\ generator (snd (add_client client s)) = generator s
    /\ network (snd (add_client client s)) = network s
    /\ api_log (snd (add_client client s)) = api_log s
    /\ inbox (snd (add_client client s)) = inbox s.
Proof.
  intros client s.
  destruct (add_client_frame client s) as [c [r [H [Ht Hf]]]].
  rewrite H. cbn. repeat split; assumption.
Qed.

Lemma assoc_get_app :
  forall (K V : Type) (eqb : K -> K -> bool) (k : K) (l1 l2 : list (K * V)),
    assoc_get eqb k (l1 ++ l2)
    = match assoc_get eqb k l1 with
      | Some v => Some v
      | None => assoc_get eqb k l2
      end.
Proof.
  intros K V eqb k l1 l2. induction l1 as [|[k' v'] l1 IH]; simpl.
  - reflexivity.
  - destruct (eqb k' k); [reflexivity|exact IH].
Qed.

(** Looking up a key after [d.update(other)]: the last pair of [other]
    for the key if there is one, the old value otherwise. *)
Lemma dict_get_update :
  forall other d k,
    dict_get (dict_update d other) k
    = match dict_get (rev other) k with
      | Some v => Some v
      | None => dict_get d k
      end.
Proof.
  induction other as [|[k1 v1] other IH]; intros d k.
  - reflexivity.
  - change (dict_update d ((k1, v1) :: other))
      with (dict_update (dict_setitem k1 v1 d) other).
    rewrite IH. cbn [rev].
    assert (Hlast : dict_get (rev other ++ [(k1, v1)]) k
                    = match dict_get (rev other) k with
                      | Some v => Some v
                      | None => if key_eqb k1 k then Some v1 else None
                      end).
    { unfold dict_get. rewrite assoc_get_app. reflexivity. }
    rewrite Hlast.
    destruct (dict_get (rev other) k) as [v|]; [reflexivity|].
    destruct (key_eqb k1 k) eqn:E.
    + apply key_eqb_eq in E. subst k1. apply dict_get_setitem_same.
    + apply dict_get_setitem_other. intro Heq. subst k.
      rewrite (proj2 (key_eqb_eq k1 k1) eq_refl) in E. discriminate.
Qed.

(** X9: [add_client] with any number of pairs merges them into the
    registry: afterwards a key given in the argument has the label of its
    last pair there, and every other key has the label it had. *)
Theorem add_client_merges :
  forall client (s : State) d,
    client_ids (config s) = PyDict d ->
    exists d',
      client_ids (config (snd (add_client client s))) = PyDict d'
      /\ forall k,
           dict_get d' k
           = match dict_get (rev client) k with
             | Some v => Some v
             | None => dict_get d k
             end.
Proof.
  intros client s d H. exists (dict_update d client). split.
  - apply add_client_registry. exact H.
  - intro k. apply dict_get_update.
Qed.


Lemma dict_setitem_keys :
  forall k v (d : pydict),
    dict_keys (dict_setitem k v d)
    = if dict_contains d k then dict_keys d else dict_keys d ++ [k].
Proof.
  intros k v d. unfold dict_contains, dict_get, dict_setitem, dict_keys.
  induction d as [|[k' v'] d IH]; simpl.
  - reflexivity.
  - destruct (key_eqb k' k) eqn:E; simpl.
    + reflexivity.
    + rewrite IH. destruct (assoc_get key_eqb k d); reflexivity.
Qed.



(** ** More on sending *)

Lemma send_each_frame :
  forall targets message parse_mode (s : State),
    exists n k,
      snd (send_each targets message parse_mode s)
      = set_network n
          (api_log s
           ++ map (fun c => SendMessage c message parse_mode)
                  (firstn k targets)) s.
Proof.
  induction targets as [|x targets IH]; intros message parse_mode s.
  - exists (network s), O. simpl. rewrite app_nil_r. destruct s; reflexivity.
  - cbn [send_each]. unfold bind at 1. unfold api at 1.
    destruct (api_exec (SendMessage x message parse_mode) (network s))
      as [[e|] n1].
    + exists n1, 1%nat. reflexivity.
    + destruct (IH message parse_mode
                  (set_network n1
                     (api_log s ++ [SendMessage x message parse_mode]) s))
        as [n [k Hk]].
      exists n, (S k). rewrite Hk. cbn [firstn map].
      cbn [api_log set_network]. rewrite <- app_assoc. reflexivity.
Qed.

(** X11: [send_message] only ever sends: whatever its arguments and
    however it ends, the configuration, the file system, the input, the
    log of the logger and the inbox are as before, and the transport
    calls it has added are all [bot.send_message] of the given text with
    the given parse mode. *)
Theorem send_message_only_sends :
  forall message parse_mode ids (s : State),
    exists n sent,
      snd (send_message message parse_mode ids s)
      = set_network n (api_log s ++ sent) s
      /\ Forall (fun c => exists chat,
                   c = SendMessage chat message parse_mode) sent.
Proof.
  intros message parse_mode ids s.
  assert (Hnone : exists n sent,
             s = set_network n (api_log s ++ sent) s
             /\ Forall (fun c => exists chat,
                          c = SendMessage chat message parse_mode) sent).
  { exists (network s), []. split; [|constructor].
    rewrite app_nil_r. destruct s; reflexivity. }
  unfold send_message. unfold bind at 1. unfold gets at 1.
  destruct (negb (truthy (token (config s)))); [exact Hnone|].
  destruct (negb (truthy (effective_recipients ids (config s))));
    [exact Hnone|].
  unfold bind at 1. unfold new_client.
  destruct (client_new (token (config s))); [exact Hnone|].
  unfold ret at 1. unfold bind at 1. unfold lift.
  destruct (py_iter (effective_recipients ids (config s)))
    as [targets|e]; [|exact Hnone].
  unfold ret at 1.
  destruct (send_each_frame targets message parse_mode s) as [n [k Hk]].
  exists n, (map (fun c => SendMessage c message parse_mode)
                 (firstn k targets)).
  split; [exact Hk|].
  apply Forall_forall. intros c Hc. apply in_map_iff in Hc.
  destruct Hc as [chat [<- _]]. exists chat. reflexivity.
Qed.

(** X12: when the transport serves every recipient, [send_message]
    returns after exactly one [bot.send_message] per recipient, in order:
    the ids given when there are any, the registered chats in the order
    of the registry when none are given (or an empty list). *)
Theorem send_message_reaches_every_recipient :
  forall (s : State) (message : string) (parse_mode : pyobj)
         (t : string) (ids : option (list Z)) (r : registry) (n : net),
    token (config s) = PyStr t -> t <> "" ->
    client_new (PyStr t) = None ->
    client_ids (config s) = of_registry r ->
    let targets := match ids with
                   | Some (x :: l) => x :: l
                   | _ => map fst r
                   end in
    targets <> [] ->
    all_delivered
      (map (fun z => SendMessage (PyInt z) message parse_mode) targets)
      (network s) = Some n ->
    send_message message parse_mode (of_ids ids) s
    = (Return tt,
       set_network n
         (api_log s
          ++ map (fun z => SendMessage (PyInt z) message parse_mode)
                 targets) s).
Proof.
  intros s message parse_mode t ids r n Ht Hne Hnew Hr targets Hnil Hall.
  assert (Heff : effective_recipients (of_ids ids) (config s)
                 = match ids with
                   | Some (x :: l) => PyList (map PyInt (x :: l))
                   | _ => of_registry r
                   end).
  { unfold effective_recipients. destruct ids as [[|x l]|];
      simpl; try rewrite Hr; reflexivity. }
  assert (Hiter : py_iter (effective_recipients (of_ids ids) (config s))
                  = Ok (map PyInt targets)).
  { rewrite Heff. subst targets. destruct ids as [[|x l]|];
      try reflexivity;
      unfold of_registry, py_iter; rewrite !map_map; reflexivity. }
  assert (Htruthy : truthy (effective_recipients (of_ids ids) (config s))
                    = true).
  { rewrite Heff. subst targets. destruct ids as [[|x l]|];
      try reflexivity;
      destruct r; try reflexivity; contradiction. }
  unfold send_message. unfold bind at 1. unfold gets at 1.
  rewrite Ht, (truthy_nonempty_string t Hne), Htruthy. simpl negb.
  cbv iota. unfold new_client. rewrite Hnew.
  unfold bind at 1. unfold ret at 1. unfold bind at 1.
  rewrite Hiter. unfold lift, ret. cbn [negb]. cbv beta iota.
  rewrite (send_each_delivered (map PyInt targets) message parse_mode s n).
  - rewrite map_map. reflexivity.
  - rewrite map_map. exact Hall.
Qed.

(** ** More on registration *)

Lemma new_password_eq :
  forall s : State,
    new_password s
    = (Return (password_at (generator s)),
       set_generator (snd (draws 8 (generator s))) s).
Proof.
  intro s. unfold new_password, bind. rewrite draw_digits_draws.
  reflexivity.
Qed.

(** X13: the registration flow draws and announces a password before it
    looks at the credential: on a bot without a usable token,
    [register_client] (and [__register_client] of [telegram_bot.py])
    raises [NoTokenError] after the generator has advanced and the notice
    has been logged; nothing else has changed. *)
Theorem register_client_without_token :
  forall s : State,
    truthy (token (config s)) = false ->
    let s' := set_logged
                (logged s ++ [password_notice (password_at (generator s))])
                (set_generator (snd (draws 8 (generator s))) s) in
    register_client s = (Raise (NoTokenError NoToken_msg), s')
    /\ script_register_client s = (Raise (NoTokenError NoToken_msg), s').
Proof.
  intros s H. cbv zeta. split.
  - unfold register_client. unfold bind at 1. rewrite new_password_eq.
    unfold bind at 1. unfold logger_warning, modify.
    unfold bind at 1. unfold get_message. unfold bind at 1.
    unfold gets at 1. cbn [config set_logged set_generator].
    rewrite H. reflexivity.
  - unfold script_register_client. unfold bind at 1.
    rewrite new_password_eq.
    unfold bind at 1. unfold logger_warning, modify.
    unfold bind at 1. unfold script_get_message. unfold bind at 1.
    unfold gets at 1. cbn [config set_logged set_generator].
    rewrite H. reflexivity.
Qed.

(** ** More on listening *)

Lemma poll_text_step_any :
  forall (h : Message -> M pyobj) msg rest (s : State) o s1,
    h msg (set_inbox rest s) = (o, s1) ->
    o <> Hang ->
    poll h (TextMessage msg :: rest) s
    = if sigterm s1 then (Return tt, set_sigterm false s1)
      else poll h rest s1.
Proof.
  intros h msg rest s o s1 H Ho. cbn [poll].
  unfold bind at 1. unfold modify at 1. unfold bind at 1.
  cbn [dispatch]. rewrite H.
  destruct o; [| |contradiction]; unfold bind, gets;
    destruct (sigterm s1); reflexivity.
Qed.

Lemma poll_other_step :
  forall (h : Message -> M pyobj) rest (s : State),
    sigterm s = false ->
    poll h (OtherUpdate :: rest) s = poll h rest (set_inbox rest s).
Proof.
  intros h rest s Hs. cbn [poll].
  unfold bind at 1. unfold modify at 1. unfold bind at 1.
  cbn [dispatch]. unfold ret at 1. unfold bind, gets.
  change (sigterm (set_inbox rest s)) with (sigterm s). rewrite Hs.
  reflexivity.
Qed.

(** A message that is not the password: [handle_passwd] says [False],
    the bot answers "Invalid!", and only the chat data and the transport
    have changed. *)
Lemma judge_wrong_password :
  forall password msg (s : State),
    text msg <> password ->
    exists o n,
      judge (handle_passwd password) msg s
      = (o, after_reply msg "Invalid!" n
              (set_chat_data (note_message (chat_data s) msg) s))
      /\ o <> Hang.
Proof.
  intros password msg s Hne. unfold judge.
  unfold bind at 1.
  change (chat_data_update msg s)
    with (Return tt, set_chat_data (note_message (chat_data s) msg) s).
  cbv iota beta. unfold bind at 1. unfold handle_passwd.
  destruct (String.eqb (text msg) password) eqn:E.
  { apply String.eqb_eq in E. contradiction. }
  unfold ret at 1. cbn [is_False]. unfold bind, api.
  destruct (api_exec (ReplyText msg "Invalid!")
              (network (set_chat_data (note_message (chat_data s) msg) s)))
    as [[e|] n].
  - exists (Raise e), n. split; [reflexivity|discriminate].
  - exists (Return (PyBool false)), n. split; [reflexivity|discriminate].
Qed.

(** The polling loop runs through messages that are not the password and
    through updates that are not text: each message is answered
    "Invalid!", the configuration and the file system stay as they are. *)
Lemma poll_skips_wrong_passwords :
  forall password pre rest (s : State),
    sigterm s = false ->
    (forall msg, In msg (texts pre) -> text msg <> password) ->
    exists s1,
      poll (handle_msg (handle_passwd password)) (pre ++ rest) s
      = poll (handle_msg (handle_passwd password)) rest s1
      /\ config s1 = config s /\ fs s1 = fs s /\ sigterm s1 = false
      /\ api_log s1
         = api_log s ++ map (fun m => ReplyText m "Invalid!") (texts pre).
Proof.
  intros password. induction pre as [|u pre IH]; intros rest s Hs Hpre.
  - exists s. cbn [app texts map]. rewrite app_nil_r.
    repeat split; assumption.
  - destruct u as [msg|].
    + assert (Hmsg : text msg <> password)
        by (apply Hpre; left; reflexivity).
      destruct (judge_wrong_password password msg
                  (set_inbox (pre ++ rest) s) Hmsg) as [o [n [Hj Ho]]].
      cbn [app].
      rewrite (poll_text_step_any (handle_msg (handle_passwd password))
                 msg (pre ++ rest) s o _ Hj Ho).
      change (sigterm (after_reply msg "Invalid!" n
                (set_chat_data
                   (note_message (chat_data (set_inbox (pre ++ rest) s)) msg)
                   (set_inbox (pre ++ rest) s))))
        with (sigterm s).
      rewrite Hs.
      destruct (IH rest
                  (after_reply msg "Invalid!" n
                     (set_chat_data
                        (note_message
                           (chat_data (set_inbox (pre ++ rest) s)) msg)
                        (set_inbox (pre ++ rest) s))))
        as [s1 [Hp [Hc [Hf [Ht Hl]]]]].
      * exact Hs.
      * intros m Hm. apply Hpre. right. exact Hm.
      * exists s1. split; [exact Hp|].
        split; [exact Hc|]. split; [exact Hf|]. split; [exact Ht|].
        rewrite Hl. cbn [texts map api_log after_reply set_network
                         set_chat_data set_inbox].
        rewrite <- app_assoc. reflexivity.
    + cbn [app]. rewrite (poll_other_step _ (pre ++ rest) s Hs).
      destruct (IH rest (set_inbox (pre ++ rest) s))
        as [s1 [Hp [Hc [Hf [Ht Hl]]]]].
      * exact Hs.
      * intros m Hm. apply Hpre. exact Hm.
      * exists s1. repeat split; assumption.
Qed.

(** A session spelled out: a client is created, the chat data start
    empty, and the inbox is polled. *)
Lemma session_eq :
  forall (h : Message -> M pyobj) (s : State),
    client_new (token (config s)) = None ->
    session h s
    = match poll h (inbox s) (set_sigterm false (set_chat_data [] s)) with
      | (Return _, s1) => (Return (chat_data s1), s1)
      | (Raise e, s1) => (Raise e, s1)
      | (Hang, s1) => (Hang, s1)
      end.
Proof.
  intros h s Hn. unfold session, idle.
  unfold bind, gets, modify, new_client. rewrite Hn. unfold ret.
  change (inbox (set_sigterm false (set_chat_data [] s))) with (inbox s).
  destruct (poll h (inbox s) (set_sigterm false (set_chat_data [] s)))
    as [[[]|e|] s1]; reflexivity.
Qed.

(** What [register_client] does once it has a usable token and a client:
    it polls the inbox with [handle_passwd] for the drawn password. *)
Lemma register_client_eq :
  forall s : State,
    truthy (token (config s)) = true ->
    client_new (token (config s)) = None ->
    register_client s
    = match poll (handle_msg (handle_passwd (password_at (generator s))))
              (inbox s)
              (set_sigterm false
                 (set_chat_data []
                    (set_logged
                       (logged s
                        ++ [password_notice (password_at (generator s))])
                       (set_generator (snd (draws 8 (generator s))) s))))
      with
      | (Return _, s1) => (Return tt, s1)
      | (Raise e, s1) => (Raise e, s1)
      | (Hang, s1) => (Hang, s1)
      end.
Proof.
  intros s Ht Hn. unfold register_client.
  unfold bind at 1. rewrite new_password_eq.
  unfold bind at 1. unfold logger_warning, modify.
  unfold bind at 1. unfold get_message. unfold bind at 1.
  unfold gets at 1. cbn [config set_logged set_generator].
  rewrite Ht. cbn [negb]. unfold ret at 1.
  unfold bind at 1. unfold wrapper.
  rewrite session_eq by exact Hn.
  set (st := set_sigterm false
               (set_chat_data []
                  (set_logged
                     (logged s
                      ++ [password_notice (password_at (generator s))])
                     (set_generator (snd (draws 8 (generator s))) s)))).
  match goal with
  | |- context [poll ?h (inbox ?st0) ?st'] =>
      change (poll h (inbox st0) st') with (poll h (inbox s) st);
      destruct (poll h (inbox s) st) as [[[]|e|] s1]
  end; reflexivity.
Qed.

(** X14: as long as no text message carries the password, the
    registration flow of [telegram_utils/main.py] registers nobody and
    does not return: it answers "Invalid!" to every text message and goes
    on waiting, with the registry, the token and the file system as they
    were.  The comparison is exact equality of the text with the
    password. *)
Theorem register_client_wrong_passwords :
  forall s : State,
    truthy (token (config s)) = true ->
    client_new (token (config s)) = None ->
    (forall msg, In msg (texts (inbox s)) ->
                 text msg <> password_at (generator s)) ->
    exists s',
      register_client s = (Hang, s')
      /\ config s' = config s
      /\ fs s' = fs s
      /\ api_log s'
         = api_log s
           ++ map (fun m => ReplyText m "Invalid!") (texts (inbox s)).
Proof.
  intros s Ht Hn Hall. rewrite (register_client_eq s Ht Hn).
  match goal with
  | |- context [poll ?h (inbox s) ?st] =>
      destruct (poll_skips_wrong_passwords (password_at (generator s))
                  (inbox s) [] st eq_refl Hall)
        as [s1 [Hp [Hc [Hf [_ Hl]]]]]
  end.
  rewrite app_nil_r in Hp. rewrite Hp. cbn [poll].
  exists (set_inbox [] s1). repeat split; assumption.
Qed.



(** ** The listen primitive as a whole *)

Lemma all_delivered_cons :
  forall c calls (n0 n : net),
    all_delivered (c :: calls) n0 = Some n ->
    exists n1, api_exec c n0 = (None, n1) /\ all_delivered calls n1 = Some n.
Proof.
  intros c calls n0 n H. cbn [all_delivered] in H.
  destruct (api_exec c n0) as [[e|] n1]; [discriminate|].
  exists n1. split; [reflexivity|exact H].
Qed.

Lemma verdict_False : verdict (PyBool false) = "Invalid!".
Proof. reflexivity. Qed.

Lemma verdict_other :
  forall r, r <> PyBool false -> verdict r = "Accepted.".
Proof. intros r H. unfold verdict. rewrite (is_False_other r H). reflexivity. Qed.

(** The polling loop for a predicate without effects, up to and including
    the first message that it does not answer with [False]. *)
Lemma poll_pure_predicate :
  forall (p : Message -> pyobj) pre m post (s : State) n,
    sigterm s = false ->
    (forall x, In x (texts pre) -> p x = PyBool false) ->
    p m <> PyBool false ->
    all_delivered
      (map (fun x => ReplyText x (verdict (p x))) (texts pre ++ [m]))
      (network s) = Some n ->
    poll (handle_msg (fun x => ret (p x))) (pre ++ TextMessage m :: post) s
    = (Return tt,
       set_sigterm false
         (set_network n
            (api_log s
             ++ map (fun x => ReplyText x (verdict (p x)))
                    (texts pre ++ [m]))
            (set_chat_data
               (fold_left note_message (texts pre ++ [m]) (chat_data s))
               (set_inbox post s)))).
Proof.
  intros p. induction pre as [|u pre IH]; intros m post s n Hs Hpre Hm Hall.
  - cbn [app texts map] in *.
    apply all_delivered_cons in Hall. destruct Hall as [n1 [Hapi Hrest]].
    cbn [all_delivered] in Hrest. inversion Hrest; subst n1.
    rewrite (verdict_other _ Hm) in *.
    rewrite (poll_text_step (handle_msg (fun x => ret (p x))) m post s
               (PyBool true)
               (set_sigterm true
                  (after_reply m "Accepted." n
                     (snd (chat_data_update m (set_inbox post s)))))).
    + reflexivity.
    + apply (judge_accepts (fun x => ret (p x)) m (set_inbox post s)
               (p m)); [reflexivity|exact Hm|exact Hapi].
  - destruct u as [x|].
    + assert (Hx : p x = PyBool false) by (apply Hpre; left; reflexivity).
      cbn [app texts map] in Hall |- *.
      apply all_delivered_cons in Hall. destruct Hall as [n1 [Hapi Hrest]].
      rewrite Hx, verdict_False in Hapi.
      assert (Hj : handle_msg (fun y => ret (p y)) x
                     (set_inbox (pre ++ TextMessage m :: post) s)
                   = (Return (PyBool false),
                      after_reply x "Invalid!" n1
                        (snd (chat_data_update x
                                (set_inbox (pre ++ TextMessage m :: post)
                                   s))))).
      { apply (judge_rejects (fun y => ret (p y)) x);
          [unfold ret; rewrite Hx; reflexivity|exact Hapi]. }
      rewrite (poll_text_step _ x _ s _ _ Hj).
      change (sigterm (after_reply x "Invalid!" n1
                (snd (chat_data_update x
                        (set_inbox (pre ++ TextMessage m :: post) s)))))
        with (sigterm s).
      rewrite Hs.
      rewrite (IH m post _ n); [|exact Hs| |exact Hm|exact Hrest].
      * rewrite Hx, verdict_False.
        cbn [api_log after_reply set_network chat_data_update modify snd
             set_chat_data set_inbox chat_data fold_left].
        rewrite <- app_assoc. reflexivity.
      * intros y Hy. apply Hpre. right. exact Hy.
    + cbn [app texts] in Hall |- *.
      rewrite (poll_other_step _ _ s Hs).
      rewrite (IH m post _ n); [reflexivity|exact Hs|exact Hpre|exact Hm|].
      exact Hall.
Qed.

(** X16: the listen primitive of [telegram_utils/main.py] for a predicate
    without effects.  The wrapper answers "Invalid!" to every text message
    on which the predicate returns [False] and "Accepted." to the first
    one on which it returns anything else; when that message is the last
    update delivered, the wrapper returns after these replies, updates
    that are not text have been passed over, and the value returned
    holds, for each chat that wrote, the text of its last message. *)
Theorem wrapper_runs_until_accepted :
  forall (p : Message -> pyobj) (s : State) pre m n,
    client_new (token (config s)) = None ->
    inbox s = pre ++ [TextMessage m] ->
    (forall x, In x (texts pre) -> p x = PyBool false) ->
    p m <> PyBool false ->
    all_delivered
      (map (fun x => ReplyText x (verdict (p x))) (texts pre ++ [m]))
      (network s) = Some n ->
    wrapper (fun x => ret (p x)) s
    = (Return (fold_left note_message (texts pre ++ [m]) []),
       set_sigterm false
         (set_network n
            (api_log s
             ++ map (fun x => ReplyText x (verdict (p x)))
                    (texts pre ++ [m]))
            (set_chat_data
               (fold_left note_message (texts pre ++ [m]) [])
               (set_inbox [] s)))).
Proof.
  intros p s pre m n Hn Hin Hpre Hm Hall.
  unfold wrapper. rewrite (session_eq _ s Hn). rewrite Hin.
  rewrite (poll_pure_predicate p pre m []
             (set_sigterm false (set_chat_data [] s)) n eq_refl Hpre Hm Hall).
  reflexivity.
Qed.

(** ** The script [telegram_bot.py] *)

Lemma poll_strangers :
  forall (f : Message -> M pyobj) d pending (s : State),
    sigterm s = false ->
    client_ids (config s) = PyDict d ->
    (forall x, In x (texts pending) ->
               dict_contains d (KInt (chat_id x)) = false) ->
    poll (script_handle_msg f) pending s = (Hang, set_inbox [] s).
Proof.
  intros f d. induction pending as [|u rest IH]; intros s Hs Hd Hall.
  - reflexivity.
  - destruct u as [x|].
    + assert (Hx : dict_contains d (KInt (chat_id x)) = false)
        by (apply Hall; left; reflexivity).
      rewrite (poll_text_step (script_handle_msg f) x rest s
                 (PyBool false) (set_inbox rest s)).
      * change (sigterm (set_inbox rest s)) with (sigterm s). rewrite Hs.
        rewrite (IH (set_inbox rest s) Hs Hd).
        -- reflexivity.
        -- intros y Hy. apply Hall. right. exact Hy.
      * unfold script_handle_msg. unfold bind at 1. unfold gets at 1.
        unfold bind at 1. cbn [config set_inbox]. rewrite Hd.
        cbn [py_contains lift]. rewrite Hx. reflexivity.
    + rewrite (poll_other_step _ rest s Hs).
      rewrite (IH (set_inbox rest s) Hs Hd Hall). reflexivity.
Qed.

(** X17: in [telegram_bot.py] the wrapper does not hear chats that are
    not registered.  When no text message in the inbox comes from a
    registered chat, the wrapper reads the whole inbox and keeps waiting,
    whatever the predicate is: the predicate is never called, no reply is
    sent, and no text is recorded. *)
Theorem script_wrapper_ignores_strangers :
  forall (f : Message -> M pyobj) (s : State) d,
    client_new (token (config s)) = None ->
    client_ids (config s) = PyDict d ->
    (forall x, In x (texts (inbox s)) ->
               dict_contains d (KInt (chat_id x)) = false) ->
    script_wrapper f s
    = (Hang, set_inbox [] (set_sigterm false (set_chat_data [] s))).
Proof.
  intros f s d Hn Hd Hall. unfold script_wrapper.
  rewrite (session_eq _ s Hn).
  rewrite (poll_strangers f d (inbox s)
             (set_sigterm false (set_chat_data [] s)) eq_refl Hd Hall).
  reflexivity.
Qed.

Lemma judge_config :
  forall (f : Message -> M pyobj) msg (s : State),
    config (snd (judge f msg s))
    = config (snd (f msg (snd (chat_data_update msg s)))).
Proof.
  intros f msg s. unfold judge. unfold bind at 1.
  unfold chat_data_update, modify. cbn [snd]. unfold bind at 1.
  match goal with
  | |- context [f msg ?s2] => destruct (f msg s2) as [[r|e|] s1]
  end; try reflexivity.
  destruct (is_False r); unfold bind, api, raise_sigterm, modify, ret;
    destruct (api_exec _ (network s1)) as [[e|] n]; reflexivity.
Qed.

Lemma handle_passwd_config :
  forall password msg (s : State),
    config (snd (handle_passwd password msg s))
    = if String.eqb (text msg) password then
        config (snd (client_ids_update
                       [(KInt (chat_id msg), of_full_name (chat_full_name msg))] s))
      else config s.
Proof.
  intros password msg s. unfold handle_passwd.
  destruct (String.eqb (text msg) password); [|reflexivity].
  unfold bind at 1.
  destruct (client_ids_update _ s) as [[[]|e|] s1]; try reflexivity.
  cbn [snd]. unfold bind.
  pose proof (write_config_config s1) as Hc.
  destruct (write_config s1) as [[[]|e|] s2]; exact Hc.
Qed.

(** A property of the configuration that every call of the handler keeps
    is kept by the polling loop and by the session. *)
Lemma poll_config_invariant :
  forall (h : Message -> M pyobj) (I : Config -> Prop),
    (forall msg s, I (config s) -> I (config (snd (h msg s)))) ->
    forall pending s, I (config s) -> I (config (snd (poll h pending s))).
Proof.
  intros h I Hh. induction pending as [|u rest IH]; intros s Hs.
  - exact Hs.
  - cbn [poll]. unfold bind at 1. unfold modify at 1. unfold bind at 1.
    assert (Hnext : forall s1 : State,
              I (config s1) ->
              I (config (snd ((stop <- gets sigterm ;;
                               if stop then modify (set_sigterm false)
                               else poll h rest) s1)))).
    { intros s1 H1. unfold bind, gets. destruct (sigterm s1).
      - exact H1.
      - apply IH. exact H1. }
    destruct u as [msg|]; cbn [dispatch].
    + pose proof (Hh msg (set_inbox rest s) Hs) as H1.
      destruct (h msg (set_inbox rest s)) as [[r|e|] s1]; cbn [snd] in H1.
      * apply Hnext. exact H1.
      * apply Hnext. exact H1.
      * exact H1.
    + unfold ret at 1. apply Hnext. exact Hs.
Qed.

Lemma session_config_invariant :
  forall (h : Message -> M pyobj) (I : Config -> Prop),
    (forall msg s, I (config s) -> I (config (snd (h msg s)))) ->
    forall s, I (config s) -> I (config (snd (session h s))).
Proof.
  intros h I Hh s Hs. unfold session.
  unfold bind at 1. unfold gets at 1. unfold bind at 1. unfold new_client.
  destruct (client_new (token (config s))); [exact Hs|].
  unfold ret at 1. unfold bind at 1. unfold modify at 1.
  unfold bind at 1. unfold idle.
  unfold bind at 1. unfold modify at 1. unfold bind at 1. unfold gets at 1.
  pose proof (poll_config_invariant h I Hh
                (inbox (set_sigterm false (set_chat_data [] s)))
                (set_sigterm false (set_chat_data [] s)) Hs) as Hp.
  destruct (poll h _ _) as [[[]|e|] s1]; exact Hp.
Qed.

Lemma script_handle_msg_same_chats :
  forall password d tok msg (s : State),
    same_chats d tok (config s) ->
    same_chats d tok
      (config (snd (script_handle_msg (handle_passwd password) msg s))).
Proof.
  intros password d tok msg s [Ht [d' [Hd Hk]]].
  unfold script_handle_msg. unfold bind at 1. unfold gets at 1.
  unfold bind at 1. rewrite Hd. cbn [py_contains lift]. unfold ret at 1.
  destruct (dict_contains d' (KInt (chat_id msg))) eqn:Ek; cbn [negb].
  - rewrite judge_config, handle_passwd_config.
    destruct (String.eqb (text msg) password).
    + rewrite (client_ids_update_dict _ _ d')
        by (cbn [config chat_data_update modify snd set_chat_data];
            exact Hd).
      cbn [snd config set_config token client_ids].
      split; [exact Ht|].
      exists (dict_setitem (KInt (chat_id msg))
                (of_full_name (chat_full_name msg)) d').
      split; [reflexivity|].
      rewrite dict_setitem_keys, Ek. exact Hk.
    + split; [exact Ht|]. exists d'. split; assumption.
  - split; [exact Ht|]. exists d'. split; assumption.
Qed.

(** X18: the registration flow of [telegram_bot.py] never registers a new
    chat.  Its handler drops messages of chats that are not registered
    before the password is looked at, so however the flow ends, the
    registry has the same chats in the same order as before (a registered
    chat that sends the password gets its label renewed), and the token is
    the same. *)
Theorem script_register_client_adds_nobody :
  forall (s : State) d,
    client_ids (config s) = PyDict d ->
    token (config (snd (script_register_client s))) = token (config s)
    /\ exists d',
         client_ids (config (snd (script_register_client s))) = PyDict d'
         /\ dict_keys d' = dict_keys d.
Proof.
  intros s d Hd.
  assert (H0 : same_chats d (token (config s)) (config s)).
  { split; [reflexivity|]. exists d. split; [exact Hd|reflexivity]. }
  change (same_chats d (token (config s))
            (config (snd (script_register_client s)))).
  unfold script_register_client.
  unfold bind at 1. rewrite new_password_eq.
  unfold bind at 1. unfold logger_warning, modify.
  unfold bind at 1. unfold script_get_message. unfold bind at 1.
  unfold gets at 1. cbn [config set_logged set_generator].
  destruct (negb (truthy (token (config s)))); [exact H0|].
  destruct (negb (truthy (client_ids (config s)))); [exact H0|].
  unfold ret at 1. unfold bind at 1. unfold script_wrapper.
  match goal with
  | |- context [session ?h ?st] =>
      pose proof (session_config_invariant h
                    (same_chats d (token (config s)))
                    (script_handle_msg_same_chats _ d (token (config s)))
                    st H0) as Hs;
      destruct (session h st) as [[cd|e|] s1]
  end; exact Hs.
Qed.

(** ** Operations in sequence *)

(** X19: a token set with [set_bot_token] and clients added afterwards
    with [add_client] are both on disk: when the two calls have returned,
    a new [Config] on the same path holds the token and the registry
    merged with the clients. *)
Theorem set_bot_token_then_add_client :
  forall (PL : PickleLaws P) (t : string) (client : pydict)
         (s s1 s2 : State) (d : pydict),
    t <> "" ->
    client_ids (config s) = PyDict d ->
    set_bot_token (PyStr t) s = (Return tt, s1) ->
    add_client client s1 = (Return tt, s2) ->
    Config_init (fs s2) (filepath (config s))
    = Ok (mkConfig (filepath (config s)) (PyStr t)
                   (PyDict (dict_update d client))).
Proof.
  intros PL t client s s1 s2 d Hne Hd H1 H2.
  assert (Hc1 : config s1
                = mkConfig (filepath (config s)) (PyStr t) (PyDict d)).
  { rewrite set_bot_token_eq, (truthy_nonempty_string t Hne) in H1.
    pose proof (write_config_config
                  (set_config (mkConfig (filepath (config s)) (PyStr t)
                                        (client_ids (config s))) s)) as Hc.
    rewrite H1 in Hc. cbn [snd config set_config] in Hc.
    rewrite Hc, Hd. reflexivity. }
  assert (Hc2 : config s2
                = mkConfig (filepath (config s)) (PyStr t)
                           (PyDict (dict_update d client))).
  { unfold add_client in H2. unfold bind at 1 in H2.
    rewrite (client_ids_update_dict client s1 d) in H2
      by (rewrite Hc1; reflexivity).
    match type of H2 with
    | write_config ?st = _ =>
        pose proof (write_config_config st) as Hc
    end.
    rewrite H2 in Hc. cbn [snd config set_config] in Hc.
    rewrite Hc, Hc1. reflexivity. }
  pose proof (Config_init_persisted PL s2
                (add_client_persisted client s1 s2 H2)) as Hload.
  rewrite Hc2 in Hload. exact Hload.
Qed.

End StoreFacts.

(* ===================================================================== *)
(** * Part III: the claims on concrete bots *)
(* ===================================================================== *)

#[local] Existing Instance RefPickle.instance.
#[local] Existing Instance ref_random.
#[local] Existing Instance ref_telegram.

(** C1 as stated fails for the empty string: the credential is set, there
    is no recipient, and [send_message] raises [NoTokenError], not
    [NoClientIdsError]. *)
Lemma send_message_blank_token :
  token (config blank_token_bot) = of_credential (Some "")
  /\ client_ids (config blank_token_bot) = of_registry []
  /\ fst (send_message "hi" PyNone (of_ids None) blank_token_bot)
     = Raise (NoTokenError NoToken_msg)
  /\ fst (send_message "hi" PyNone (of_ids None) blank_token_bot)
     <> Raise (NoClientIdsError NoClientIds_msg).
Proof.
  repeat split; try reflexivity. discriminate.
Qed.

Lemma send_message_guards_witness :
  send_message "hi" PyNone (of_ids None) keyed_bot
  = (Raise (NoClientIdsError NoClientIds_msg), keyed_bot).
Proof.
  apply (proj2 (send_message_guards keyed_bot "hi" PyNone
                  (Some "123:abc") None [] eq_refl eq_refl)
           "123:abc" eq_refl).
  - discriminate.
  - left. reflexivity.
  - reflexivity.
Defined.

Lemma write_config_then_Config_init_witness :
  Config_init (fs (snd (write_config fresh_bot))) example_path
  = Ok (mkConfig example_path (of_credential None) (of_registry [])).
Proof.
  apply (proj2 (write_config_then_Config_init ref_pickle_laws None []
                  fresh_bot eq_refl eq_refl)
           (snd (write_config fresh_bot))).
  vm_compute. reflexivity.
Defined.

Lemma mutation_is_persisted_witness :
  Config_init (fs (snd (perform RegisterClient registering_bot)))
    (filepath (config (snd (perform RegisterClient registering_bot))))
  = Ok (config (snd (perform RegisterClient registering_bot))).
Proof.
  apply (proj2 (proj1 mutation_is_persisted RegisterClient registering_bot
                  (snd (perform RegisterClient registering_bot))
                  ltac:(vm_compute; reflexivity))).
  exact ref_pickle_laws.
Defined.

(** C4 as stated fails twice: in [telegram_bot.py] a set credential does
    not suffice when the registry is empty, and in both modules the empty
    string counts as no credential. *)
Lemma get_message_not_only_credential :
  token (config keyed_bot) = of_credential (Some "123:abc")
  /\ fst (script_get_message always_zero keyed_bot)
     = Raise (NoClientIdsError NoClientIds_msg)
  /\ token (config blank_token_bot) = of_credential (Some "")
  /\ fst (get_message always_zero blank_token_bot)
     = Raise (NoTokenError NoToken_msg).
Proof.
  repeat split; reflexivity.
Qed.

Lemma get_message_preconditions_witness :
  get_message always_zero keyed_bot
  = (Return (wrapper always_zero), keyed_bot).
Proof.
  apply (proj1 (proj2 (get_message_preconditions keyed_bot always_zero
                         (Some "123:abc") eq_refl)
                  "123:abc" eq_refl ltac:(discriminate))).
Defined.

Lemma send_message_aborts_on_failure_witness :
  send_message "hi" PyNone PyNone broadcast_bot
  = (Raise (TelegramError "Chat not found"),
     set_network 2%nat
       [SendMessage (PyInt 1) "hi" PyNone;
        SendMessage (PyInt (-2)) "hi" PyNone]
       broadcast_bot).
Proof.
  apply (send_message_aborts_on_failure broadcast_bot "hi" PyNone PyNone
           [PyInt 1] [PyInt 3] (PyInt (-2)) 1%nat 2%nat
           (TelegramError "Chat not found"));
    reflexivity.
Defined.



Lemma Config_init_empty_file_witness :
  Config_init (Dir [("telegram_config.pickle", File [])])
              ["telegram_config.pickle"]
  = Err EOFError
  /\ isinstance_ConfigError EOFError = false.
Proof.
  apply (Config_init_empty_file
           (Dir [("telegram_config.pickle", File [])])
           ["telegram_config.pickle"]);
    reflexivity.
Defined.

Lemma registration_password_witness :
  exists password,
    new_password keyed_bot
    = (Return password,
       set_generator (snd (draws 8 (generator keyed_bot))) keyed_bot)
    /\ String.length password = 8.
Proof.
  destruct (registration_password ref_random_laws keyed_bot)
    as [password [Hnew [_ [Hlen _]]]].
  exists password. split; [exact Hnew|exact Hlen].
Defined.

Lemma add_client_last_write_wins_witness :
  exists d2,
    client_ids
      (config
         (snd (add_client [(KInt 5, PyStr "Bob")]
                 (snd (add_client [(KInt 5, PyStr "Alice")] fresh_bot)))))
    = PyDict d2
    /\ dict_get d2 (KInt 5) = Some (PyStr "Bob")
    /\ d2 = [(KInt 5, PyStr "Bob")].
Proof.
  destruct (proj2 (add_client_last_write_wins fresh_bot [] eq_refl))
    as [d2 [Hreg [Hget [_ Hall]]]].
  exists d2. repeat split; [exact Hreg|exact Hget|exact (Hall eq_refl)].
Defined.

Lemma listen_tests_identity_with_False_witness :
  poll (handle_msg always_zero) [TextMessage hello; OtherUpdate] keyed_bot
  = (Return tt,
     set_sigterm false
       (after_reply hello "Accepted." 1%nat
          (snd (chat_data_update hello
                  (set_inbox [OtherUpdate] keyed_bot))))).
Proof.
  apply (proj1 (listen_tests_identity_with_False always_zero hello
                  [OtherUpdate] keyed_bot (PyInt 0)
                  (snd (chat_data_update hello
                          (set_inbox [OtherUpdate] keyed_bot)))
                  1%nat eq_refl)).
  - discriminate.
  - reflexivity.
Defined.

(** ** The model at work *)

(** [set_bot_token("abc")], then a new [Config] on the same path. *)
Example set_bot_token_then_load :
  Config_init (fs (snd (set_bot_token (PyStr "abc") fresh_bot))) example_path
  = Ok (mkConfig example_path (PyStr "abc") (PyDict [])).
Proof. vm_compute. reflexivity. Qed.

(** [add_client({5: "Alice"})] on an empty registry, then a new [Config]. *)
Example add_client_then_load :
  Config_init
    (fs (snd (add_client [(KInt 5, PyStr "Alice")] fresh_bot))) example_path
  = Ok (mkConfig example_path PyNone (of_registry [(5%Z, "Alice")])).
Proof. vm_compute. reflexivity. Qed.

(** The registration flow of [telegram_utils/main.py]: the greeting is
    answered "Invalid!", the password "Accepted.", and the sender is
    registered. *)
Example register_client_run :
  fst (register_client registering_bot) = Return tt
  /\ client_ids (config (snd (register_client registering_bot)))
     = of_registry [(7%Z, "Dan")]
  /\ api_log (snd (register_client registering_bot))
     = [ReplyText hello "Invalid!";
        ReplyText (mkMessage 7 (Some "Dan") "01234567") "Accepted."]
  /\ logged (snd (register_client registering_bot))
     = [password_notice "01234567"].
Proof. vm_compute. repeat split; reflexivity. Qed.

(** The registration flow of [telegram_bot.py] does not start on an empty
    registry. *)
Example script_register_client_run :
  fst (script_register_client registering_bot)
  = Raise (NoClientIdsError NoClientIds_msg).
Proof. vm_compute. reflexivity. Qed.

(** With no update left the session keeps waiting. *)
Example register_client_waits :
  fst (register_client keyed_bot) = Hang.
Proof. vm_compute. reflexivity. Qed.

(** ** Further properties on concrete bots *)

Lemma ref_loads_no_ConfigError :
  forall data e,
    RefPickle.loads data = Err e -> isinstance_ConfigError e = false.
Proof.
  intros data e H. unfold RefPickle.loads in H.
  destruct data as [|b bs]; [inversion H; reflexivity|].
  destruct (RefPickle.decode _ _) as [[o r]|]; inversion H. reflexivity.
Qed.

Lemma Config_init_ConfigError_iff_witness :
  Config_init (Dir [("telegram_config.pickle", File ["?"%byte])])
              ["telegram_config.pickle"]
  = Err (ConfigError "Invalid configuration file!")
  /\ isinstance_ConfigError (ConfigError "Invalid configuration file!")
     = true.
Proof.
  apply (proj2 (Config_init_ConfigError_iff (P := RefPickle.instance)
                  (Dir [("telegram_config.pickle", File ["?"%byte])])
                  ["telegram_config.pickle"]
                  (ConfigError "Invalid configuration file!")
                  ref_loads_no_ConfigError)).
  split; [reflexivity|]. exists ["?"%byte]. split; reflexivity.
Defined.

Lemma Config_init_missing_client_ids_witness :
  exists tok,
    Config_init
      (Dir [("telegram_config.pickle",
             File (RefPickle.dumps (PyDict [(KStr "token", PyStr "abc")])))])
      ["telegram_config.pickle"]
    = Ok (mkConfig ["telegram_config.pickle"] tok PyNone).
Proof.
  destruct (Config_init_missing_client_ids (P := RefPickle.instance)
              (Dir [("telegram_config.pickle",
                     File (RefPickle.dumps
                             (PyDict [(KStr "token", PyStr "abc")])))])
              ["telegram_config.pickle"]
              (RefPickle.dumps (PyDict [(KStr "token", PyStr "abc")]))
              [(KStr "token", PyStr "abc")]
              eq_refl eq_refl eq_refl) as [tok [H _]].
  exists tok. exact H.
Defined.

Lemma reload_after_mutation_witness :
  TelegramBot_init
    (Some (filepath (config (snd (perform (SetToken (PyStr "abc"))
                                    fresh_bot)))))
    example_path
    (snd (perform (SetToken (PyStr "abc")) fresh_bot))
  = (Return tt, snd (perform (SetToken (PyStr "abc")) fresh_bot)).
Proof.
  apply (reload_after_mutation ref_pickle_laws (SetToken (PyStr "abc"))
           fresh_bot).
  vm_compute. reflexivity.
Defined.

Lemma example_path_plain : plain_path example_path.
Proof.
  repeat constructor; discriminate.
Qed.

Lemma write_config_refuses_bad_path_witness :
  write_config (set_fs (Dir [("data", File [])]) fresh_bot)
  = (Raise NotADirectoryError, set_fs (Dir [("data", File [])]) fresh_bot).
Proof.
  apply (proj2 (write_config_refuses_bad_path
                  (set_fs (Dir [("data", File [])]) fresh_bot)
                  example_path_plain)).
  exists ["data"], "telegram_config.pickle", [], []. split; reflexivity.
Defined.

Lemma write_config_keeps_other_files_witness :
  fs_read
    (fs (snd (write_config
                (set_fs (Dir [("notes.txt", File ["n"%byte])]) fresh_bot))))
    ["notes.txt"]
  = Ok ["n"%byte].
Proof.
  apply (write_config_keeps_other_files
           (set_fs (Dir [("notes.txt", File ["n"%byte])]) fresh_bot)
           (fst (write_config
                   (set_fs (Dir [("notes.txt", File ["n"%byte])])
                      fresh_bot)))).
  - exact example_path_plain.
  - repeat constructor; discriminate.
  - destruct (write_config _). reflexivity.
  - discriminate.
  - reflexivity.
Defined.

Lemma write_config_creates_directories_witness :
  exists s' es,
    write_config fresh_bot = (Return tt, s')
    /\ fs_stat (fs s') (parent (filepath (config fresh_bot))) = Ok (Dir es)
    /\ fs_read (fs s') (filepath (config fresh_bot))
       = Ok (pickle_dumps
               (PyDict [(KStr "token", token (config fresh_bot));
                        (KStr "client_ids",
                         client_ids (config fresh_bot))])).
Proof.
  apply (write_config_creates_directories fresh_bot example_path_plain).
  reflexivity.
Defined.

Lemma set_bot_token_prompts_witness :
  set_bot_token PyNone fresh_bot = (Raise EOFError, fresh_bot).
Proof.
  apply (proj1 (proj2 (set_bot_token_prompts PyNone fresh_bot)));
    reflexivity.
Defined.

Lemma add_client_merges_witness :
  exists d',
    client_ids
      (config (snd (add_client [(KInt 5, PyStr "Al"); (KInt 5, PyStr "Bo")]
                      fresh_bot)))
    = PyDict d'
    /\ dict_get d' (KInt 5) = Some (PyStr "Bo").
Proof.
  destruct (add_client_merges [(KInt 5, PyStr "Al"); (KInt 5, PyStr "Bo")]
              fresh_bot [] eq_refl) as [d' [H Hget]].
  exists d'. split; [exact H|]. rewrite Hget. reflexivity.
Defined.


Lemma send_message_reaches_every_recipient_witness :
  send_message "hi" PyNone (of_ids (Some [4; 2]%Z)) broadcast_bot
  = (Return tt,
     set_network 2%nat
       [SendMessage (PyInt 4) "hi" PyNone;
        SendMessage (PyInt 2) "hi" PyNone]
       broadcast_bot).
Proof.
  apply (send_message_reaches_every_recipient broadcast_bot "hi" PyNone
           "123:abc" (Some [4; 2]%Z)
           [(1, "Ann"); (-2, "Bea"); (3, "Cy")]%Z 2%nat);
    try reflexivity; discriminate.
Defined.

Lemma register_client_without_token_witness :
  register_client fresh_bot
  = (Raise (NoTokenError NoToken_msg),
     set_logged [password_notice "01234567"] (set_generator 8%nat fresh_bot)).
Proof.
  apply (proj1 (register_client_without_token fresh_bot eq_refl)).
Defined.

Lemma register_client_wrong_passwords_witness :
  exists s',
    register_client chatting_bot = (Hang, s')
    /\ config s' = config chatting_bot
    /\ api_log s' = [ReplyText hello "Invalid!"].
Proof.
  destruct (register_client_wrong_passwords chatting_bot eq_refl eq_refl)
    as [s' [H [Hc [_ Hl]]]].
  - intros msg [<-|[]]. vm_compute. discriminate.
  - exists s'. repeat split; assumption.
Defined.


Lemma wrapper_runs_until_accepted_witness :
  wrapper (fun x => ret (is_open x)) open_bot
  = (Return [(KInt 7, PyDict [(KStr "msg", PyStr "open")])],
     set_sigterm false
       (set_network 2%nat
          [ReplyText hello "Invalid!"; ReplyText open_msg "Accepted."]
          (set_chat_data [(KInt 7, PyDict [(KStr "msg", PyStr "open")])]
             (set_inbox [] open_bot)))).
Proof.
  apply (wrapper_runs_until_accepted is_open open_bot
           [TextMessage hello] open_msg 2%nat eq_refl eq_refl).
  - intros x [<-|[]]. reflexivity.
  - discriminate.
  - reflexivity.
Defined.

Lemma script_wrapper_ignores_strangers_witness :
  script_wrapper (fun x => ret (is_open x)) dan_bot
  = (Hang, set_inbox [] (set_sigterm false (set_chat_data [] dan_bot))).
Proof.
  apply (script_wrapper_ignores_strangers (fun x => ret (is_open x))
           dan_bot [(KInt 7, PyStr "Dan")] eq_refl eq_refl).
  intros x [<-|[<-|[]]]; reflexivity.
Defined.

Lemma script_register_client_adds_nobody_witness :
  token (config (snd (script_register_client dan_bot)))
  = token (config dan_bot)
  /\ exists d',
       client_ids (config (snd (script_register_client dan_bot)))
       = PyDict d'
       /\ dict_keys d' = [KInt 7].
Proof.
  apply (script_register_client_adds_nobody dan_bot
           [(KInt 7, PyStr "Dan")] eq_refl).
Defined.

Lemma set_bot_token_then_add_client_witness :
  Config_init
    (fs (snd (add_client [(KInt 5, PyStr "Alice")]
                (snd (set_bot_token (PyStr "abc") fresh_bot)))))
    (filepath (config fresh_bot))
  = Ok (mkConfig (filepath (config fresh_bot)) (PyStr "abc")
                 (PyDict (dict_update [] [(KInt 5, PyStr "Alice")]))).
Proof.
  apply (set_bot_token_then_add_client ref_pickle_laws "abc"
           [(KInt 5, PyStr "Alice")] fresh_bot
           (snd (set_bot_token (PyStr "abc") fresh_bot))
           (snd (add_client [(KInt 5, PyStr "Alice")]
                   (snd (set_bot_token (PyStr "abc") fresh_bot))))
           []).
  - discriminate.
  - reflexivity.
  - vm_compute. reflexivity.
  - vm_compute. reflexivity.
Defined.
